(** * A shallow embedding of the GraphQL client (graphql.go)

    The client derives a document from a destination value, posts it to a
    server, and decodes the response envelope back into the destination.
    This file embeds [Client.Query], [Client.Mutate], [Client.Do] and the
    [errors] type with its [Error] method, and proves the properties the
    specification states about them.

    Everything [Do] calls outside of graphql.go (encoding/json, net/http,
    strconv, internal/jsonutil, the query constructors) is gathered in the
    [Platform] interface; the theorems hold for every implementation of it.
    A small implementation, [Reference], is used to run the client on
    concrete responses. *)

From Stdlib Require Import String Ascii ZArith List Bool Lia DecimalString.
From stdpp Require Import base option list gmap strings sorting.
Import ListNotations.
Local Open Scope string_scope.
Local Open Scope Z_scope.
Set Warnings "-register-all".

(** ** Data *)

(** [[]byte]: a byte string. *)
Definition bytes := string.

(** A JSON document as a syntax tree.  Numbers keep their literal. *)
Inductive JSON : Type :=
| JNull
| JBool (b : bool)
| JNumber (literal : string)
| JString (s : string)
| JArray (elems : list JSON)
| JObject (members : list (string * JSON)).

(** One entry of [Locations] in the [errors] type (graphql.go, 110-113). *)
Record Location := mkLocation { Line : Z; Column : Z }.

(** One element of the [errors] slice (graphql.go, 108-114). *)
Record ProtocolError := mkProtocolError {
  Message : string;
  Locations : list Location
}.

(** [type errors []struct{...}]: the "errors" array of a response. *)
Definition errors := list ProtocolError.

(** [func (e errors) Error() string { return e[0].Message }].
    Indexing an empty slice panics at run time; [None] stands for that
    panic. *)
Definition errors_Error (e : errors) : option string :=
  match e !! 0%nat with
  | Some first => Some (Message first)
  | None => None
  end.

(** The local [out] struct of [Do] (graphql.go, 76-80): [Data] is a
    [*json.RawMessage], nil when the key is absent or null. *)
Record out_t := mkOut {
  out_Data : option bytes;
  out_Errors : errors
}.

(** [http.StatusOK] and [http.MethodPost]. *)
Definition StatusOK : Z := 200.
Definition MethodPost : string := "POST".

(** ** The collaborators of the client *)

Class Platform := {
  (** the destination value behind [res any] *)
  Shape : Type;
  (** the values of [map[string]any] *)
  Value : Type;
  (** whatever the transport talks to *)
  Net : Type;
  (** error values created by the collaborators *)
  ExtErr : Type;
  (** [*url.URL] *)
  URL : Type;
  (** a non-nil [context.Context] *)
  Deadline : Type;
  (** encoding/json, marshalling one [any] value *)
  json_Marshal : Value -> JSON + ExtErr;
  (** encoding/json, writing a document as text *)
  json_render : JSON -> bytes;
  (** [json.NewDecoder(r).Decode(&out)] on the bytes of [r] *)
  json_Decode : bytes -> out_t + ExtErr;
  (** [url.Parse] *)
  url_Parse : string -> URL + ExtErr;
  (** [strconv.Quote], what the verb [%q] prints *)
  strconv_Quote : string -> string;
  (** [jsonutil.UnmarshalGraphQL(data, res)]: the destination after the
      call, and the error returned *)
  UnmarshalGraphQL : bytes -> Shape -> Shape * option ExtErr;
  (** [jsonutil.MergeUnmarshalGraphQL(data, res)] *)
  MergeUnmarshalGraphQL : bytes -> Shape -> Shape * option ExtErr;
  (** [constructQuery(q, variables)] *)
  constructQuery : Shape -> gmap string Value -> string;
  (** [constructMutation(m, variables)] *)
  constructMutation : Shape -> gmap string Value -> string
}.

Section Client.
Context `{P : Platform}.

(** The values of the Go interface [error] that [Do] can return. *)
Inductive error : Type :=
| External (e : ExtErr)        (* an error of a collaborator, passed on *)
| errorString (s : string)     (* errors.New / fmt.Errorf *)
| ErrorsValue (e : errors).    (* an [errors] slice behind the interface *)

(** The type assertion [err.(errors)]. *)
Definition as_errors (err : error) : option errors :=
  match err with
  | ErrorsValue e => Some e
  | _ => None
  end.

(** [*http.Request], the fields the client sets. *)
Record Request := mkRequest {
  Method : string;
  ReqURL : URL;
  Header : gmap string (list string);
  Body : bytes;
  Ctx : Deadline
}.

(** [*http.Response], the fields the client reads. *)
Record Response := mkResponse {
  Status : string;
  StatusCode : Z;
  RespBody : bytes
}.

(** The method [Do] of [*http.Client]: one exchange with the network. *)
Definition HTTPClient := Net -> Request -> (Response + ExtErr) * Net.

(** [type Client struct { url string; httpClient *http.Client }]. *)
Record Client := mkClient {
  url : string;
  httpClient : HTTPClient
}.

(** [NewClient]: a nil [httpClient] is replaced by [http.DefaultClient]. *)
Definition NewClient (DefaultClient : HTTPClient) (u : string)
    (h : option HTTPClient) : Client :=
  match h with
  | None => mkClient u DefaultClient
  | Some h' => mkClient u h'
  end.

(** The local [in] struct of [Do] (graphql.go, 50-56). *)
Record in_t := mkIn {
  in_Query : string;
  in_Variables : gmap string Value
}.

(** ** Calls that leave graphql.go *)

Inductive Event : Type :=
| EvEncode                        (* json.NewEncoder(&buf).Encode(in) *)
| EvNewRequest                    (* http.NewRequestWithContext *)
| EvRoundTrip (req : Request)     (* c.httpClient.Do(req) *)
| EvReadAll                       (* io.ReadAll(resp.Body) *)
| EvDecode                        (* json.NewDecoder(resp.Body).Decode(&out) *)
| EvUnmarshal (raw : bytes)       (* jsonutil.UnmarshalGraphQL *)
| EvMergeUnmarshal (raw : bytes)  (* jsonutil.MergeUnmarshalGraphQL *)
| EvClose.                        (* resp.Body.Close() *)

(** What a call can change: the destination and the network. *)
Record World := mkWorld {
  dest : Shape;
  net : Net
}.

(** The outcome of running a piece of [Do]: [inr e] is [return e]. *)
Record Run (A : Type) := mkRun {
  value : A + error;
  after : World;
  calls : list Event
}.
Arguments mkRun {A} _ _ _.
Arguments value {A} _.
Arguments after {A} _.
Arguments calls {A} _.

Definition Go (A : Type) : Type := World -> Run A.

Definition ret {A} (a : A) : Go A := fun w => mkRun (inl a) w [].

Definition fail {A} (e : error) : Go A := fun w => mkRun (inr e) w [].

Definition bind {A B} (m : Go A) (k : A -> Go B) : Go B := fun w =>
  let r := m w in
  match value r with
  | inl a =>
      let r' := k a (after r) in
      mkRun (value r') (after r') (calls r ++ calls r')
  | inr e => mkRun (inr e) (after r) (calls r)
  end.

(** [defer d]: [d] runs when the rest of the function has returned. *)
Definition defer {A} (d : Go unit) (rest : Go A) : Go A := fun w =>
  let r := rest w in
  let r' := d (after r) in
  mkRun (value r) (after r') (calls r ++ calls r').

(** A call without effect on the world: record it, pass on its result. *)
Definition call {A} (ev : Event) (x : A + error) : Go A := fun w =>
  mkRun x w [ev].

Notation "'let!' x ':=' m 'in' k" := (bind m (fun x => k))
  (at level 10, x name, m at level 200, k at level 200, only parsing).
Notation "'do!' m 'in' k" := (bind m (fun _ => k))
  (at level 10, m at level 200, k at level 200, only parsing).

(** ** net/http: building the request *)

(** [httpguts.IsTokenRune]: the characters of an HTTP token. *)
Definition isTokenByte (c : ascii) : bool :=
  let n := Z.of_nat (nat_of_ascii c) in
  ((48 <=? n) && (n <=? 57)) || ((65 <=? n) && (n <=? 90))
  || ((97 <=? n) && (n <=? 122))
  || existsb (Z.eqb n)
       [33; 35; 36; 37; 38; 39; 42; 43; 45; 46; 94; 95; 96; 124; 126].

Fixpoint all_bytes (p : ascii -> bool) (s : string) : bool :=
  match s with
  | EmptyString => true
  | String c s' => p c && all_bytes p s'
  end.

(** [validMethod]: a non-empty token. *)
Definition validMethod (method : string) : bool :=
  negb (String.eqb method "") && all_bytes isTokenByte method.

(** [http.NewRequestWithContext(ctx, method, url, body)]; a nil [ctx] is
    [None].  The new request has an empty header. *)
Definition NewRequestWithContext (ctx : option Deadline) (method u : string)
    (body : bytes) : Request + error :=
  let method := if String.eqb method "" then "GET" else method in
  if negb (validMethod method) then
    inr (errorString ("net/http: invalid method " +:+ strconv_Quote method))
  else
    match ctx with
    | None => inr (errorString "net/http: nil Context")
    | Some d =>
        match url_Parse u with
        | inr e => inr (External e)
        | inl parsed => inl (mkRequest method parsed ∅ body d)
        end
    end.

Definition upper_byte (c : ascii) : ascii :=
  let n := nat_of_ascii c in
  if ((97 <=? n) && (n <=? 122))%nat then ascii_of_nat (n - 32) else c.

Definition lower_byte (c : ascii) : ascii :=
  let n := nat_of_ascii c in
  if ((65 <=? n) && (n <=? 90))%nat then ascii_of_nat (n + 32) else c.

Fixpoint canonical_from (upper : bool) (s : string) : string :=
  match s with
  | EmptyString => EmptyString
  | String c s' =>
      let c' := if upper then upper_byte c else lower_byte c in
      String c' (canonical_from (Ascii.eqb c' "-") s')
  end.

(** [textproto.CanonicalMIMEHeaderKey]: a key with a byte that is not a
    token byte is left as it is. *)
Definition CanonicalMIMEHeaderKey (k : string) : string :=
  if all_bytes isTokenByte k then canonical_from true k else k.

(** [req.Header.Set(key, value)]. *)
Definition Header_Set (req : Request) (k v : string) : Request :=
  mkRequest (Method req) (ReqURL req)
            (<[CanonicalMIMEHeaderKey k := [v]]> (Header req))
            (Body req) (Ctx req).

(** ** encoding/json: the request body *)

Definition key_le (x y : string * Value) : Prop := String.leb x.1 y.1 = true.

#[local] Instance key_le_dec x y : Decision (key_le x y).
Proof. unfold key_le. apply _. Defined.

(** The entries of a map in the order the encoder writes them: sorted
    by key. *)
Definition sorted_entries (m : gmap string Value) : list (string * Value) :=
  merge_sort key_le (map_to_list m).

(** Marshalling the entries one after the other; the first error ends it. *)
Fixpoint marshal_entries (kvs : list (string * Value))
    : list (string * JSON) + ExtErr :=
  match kvs with
  | [] => inl []
  | (k, v) :: rest =>
      match json_Marshal v with
      | inr e => inr e
      | inl j =>
          match marshal_entries rest with
          | inr e => inr e
          | inl js => inl ((k, j) :: js)
          end
      end
  end.

(** The document for [in]: the key names come from the field tags
    [json:"query"] and [json:"variables,omitempty"]; with [omitempty] a map
    of length 0 (nil or empty) is left out. *)
Definition marshal_in (i : in_t) : JSON + ExtErr :=
  if bool_decide (size (in_Variables i) = 0%nat) then
    inl (JObject [("query", JString (in_Query i))])
  else
    match marshal_entries (sorted_entries (in_Variables i)) with
    | inr e => inr e
    | inl vars =>
        inl (JObject [("query", JString (in_Query i));
                      ("variables", JObject vars)])
    end.

Definition newline : string := String (ascii_of_nat 10) EmptyString.

(** [json.NewEncoder(&buf).Encode(in)]: the text of the document and a
    newline are written to [buf]. *)
Definition Encode (i : in_t) : bytes + error :=
  match marshal_in i with
  | inr e => inr (External e)
  | inl j => inl (json_render j +:+ newline)
  end.

(** ** Calls with an effect *)

(** [c.httpClient.Do(req)]. *)
Definition httpClient_Do (c : Client) (req : Request) : Go Response := fun w =>
  let '(r, n) := httpClient c (net w) req in
  mkRun (match r with inl resp => inl resp | inr e => inr (External e) end)
        (mkWorld (dest w) n) [EvRoundTrip req].

(** [resp.Body.Close()]. *)
Definition Body_Close : Go unit := call EvClose (inl tt).

(** [io.ReadAll(resp.Body)], its error dropped as in [body, _ :=]. *)
Definition ReadAll (resp : Response) : Go bytes :=
  call EvReadAll (inl (RespBody resp)).

(** [json.NewDecoder(resp.Body).Decode(&out)]. *)
Definition Decode (resp : Response) : Go out_t :=
  call EvDecode (match json_Decode (RespBody resp) with
                 | inl o => inl o
                 | inr e => inr (External e)
                 end).

(** A decoder of internal/jsonutil writing into [res]. *)
Definition decode_into (ev : Event)
    (decoder : bytes -> Shape -> Shape * option ExtErr) (raw : bytes)
    : Go unit := fun w =>
  let '(d, err) := decoder raw (dest w) in
  mkRun (match err with Some e => inr (External e) | None => inl tt end)
        (mkWorld d (net w)) [ev].

(** [fmt.Errorf("non-200 OK status code: %v body: %q", resp.Status, body)]. *)
Definition status_error (status : string) (body : bytes) : error :=
  errorString ("non-200 OK status code: " +:+ status +:+ " body: "
               +:+ strconv_Quote body).

(** ** graphql.go *)

(** [func (c *Client) Do(ctx, query, res, merge, variables) error]
    (graphql.go, 49-102).  [res] is the destination held by the world;
    the value [inl tt] is the return of nil. *)
Definition Do (c : Client) (ctx : option Deadline) (query : string)
    (merge : bool) (variables : gmap string Value) : Go unit :=
  let i := mkIn query variables in
  let! buf := call EvEncode (Encode i) in
  let! req := call EvNewRequest
                (NewRequestWithContext ctx MethodPost (url c) buf) in
  let req := Header_Set req "Content-Type" "application/json" in
  let! resp := httpClient_Do c req in
  defer Body_Close (
    if negb (StatusCode resp =? StatusOK) then
      let! body := ReadAll resp in
      fail (status_error (Status resp) body)
    else
      let! out := Decode resp in
      do! match out_Data out with
          | Some data =>
              if merge then
                decode_into (EvMergeUnmarshal data) MergeUnmarshalGraphQL data
              else
                decode_into (EvUnmarshal data) UnmarshalGraphQL data
          | None => ret tt
          end in
      if (0 <? length (out_Errors out))%nat then
        fail (ErrorsValue (out_Errors out))
      else
        ret tt).

(** [func (c *Client) Query(ctx, q, variables) error] (graphql.go, 35-38):
    [q] is both the value the query is derived from and the destination. *)
Definition Query (c : Client) (ctx : option Deadline)
    (variables : gmap string Value) : Go unit := fun w =>
  let query := constructQuery (dest w) variables in
  Do c ctx query false variables w.

(** [func (c *Client) Mutate(ctx, m, variables) error] (graphql.go, 43-46). *)
Definition Mutate (c : Client) (ctx : option Deadline)
    (variables : gmap string Value) : Go unit := fun w =>
  let mutation := constructMutation (dest w) variables in
  Do c ctx mutation false variables w.

(** What the caller receives: [None] is nil. *)
Definition returned (r : Run unit) : option error :=
  match value r with
  | inl _ => None
  | inr e => Some e
  end.

(** ** Vocabulary for the properties *)

(** The request [Do] hands to the transport, when it gets that far
    (graphql.go, 50-66). *)
Definition request_of (c : Client) (ctx : option Deadline) (query : string)
    (variables : gmap string Value) : option Request :=
  match Encode (mkIn query variables) with
  | inr _ => None
  | inl buf =>
      match NewRequestWithContext ctx MethodPost (url c) buf with
      | inr _ => None
      | inl req => Some (Header_Set req "Content-Type" "application/json")
      end
  end.

(** The transport answers the request of [Do] with [resp], leaving the
    network in state [n]. *)
Definition Receives (c : Client) (ctx : option Deadline) (query : string)
    (variables : gmap string Value) (w : World)
    (req : Request) (resp : Response) (n : Net) : Prop :=
  request_of c ctx query variables = Some req
  /\ httpClient c (net w) req = (inl resp, n).

(** The answer has status 200 and its body decodes into the envelope
    [out]. *)
Definition Envelope (c : Client) (ctx : option Deadline) (query : string)
    (variables : gmap string Value) (w : World)
    (req : Request) (resp : Response) (n : Net) (out : out_t) : Prop :=
  Receives c ctx query variables w req resp n
  /\ StatusCode resp = StatusOK
  /\ json_Decode (RespBody resp) = inl out.

(** The decoder the flag [merge] selects (graphql.go, 87-91), and the
    call it is recorded as. *)
Definition payload_decoder (merge : bool)
    : bytes -> Shape -> Shape * option ExtErr :=
  if merge then MergeUnmarshalGraphQL else UnmarshalGraphQL.

Definition decode_event (merge : bool) (data : bytes) : Event :=
  if merge then EvMergeUnmarshal data else EvUnmarshal data.

(** What [Do] returns once the payload is dealt with (graphql.go, 98-101). *)
Definition verdict (es : errors) : unit + error :=
  if (0 <? length es)%nat then inr (ErrorsValue es) else inl tt.

Definition is_round_trip (ev : Event) : bool :=
  match ev with EvRoundTrip _ => true | _ => false end.

(** The number of exchanges with the network among some calls. *)
Definition round_trips (evs : list Event) : nat :=
  length (List.filter is_round_trip evs).

Definition is_replace_decode (ev : Event) : bool :=
  match ev with EvUnmarshal _ => true | _ => false end.

Definition is_merge_decode (ev : Event) : bool :=
  match ev with EvMergeUnmarshal _ => true | _ => false end.

Definition is_payload_decode (ev : Event) : bool :=
  is_replace_decode ev || is_merge_decode ev.

Definition is_envelope_decode (ev : Event) : bool :=
  match ev with EvDecode => true | _ => false end.

(** The two calls that read the body of the response. *)
Definition is_body_read (ev : Event) : bool :=
  match ev with EvReadAll | EvDecode => true | _ => false end.

Definition is_close (ev : Event) : bool :=
  match ev with EvClose => true | _ => false end.

(** The number of calls of a kind. *)
Definition count_calls (kind : Event -> bool) (evs : list Event) : nat :=
  length (List.filter kind evs).

(** A status code of the class 2xx. *)
Definition is_2xx (code : Z) : bool := (200 <=? code) && (code <? 300).

(** What the wire protocol asks of a request carrying the document
    [query] and the bindings [variables]. *)
Definition wire_request (query : string) (variables : gmap string Value)
    (req : Request) : Prop :=
  Method req = "POST"
  /\ Header req !! "Content-Type" = Some ["application/json"]
  /\ exists doc : JSON,
       Body req = json_render doc +:+ newline
       /\ (size variables = 0%nat -> doc = JObject [("query", JString query)])
       /\ (size variables <> 0%nat ->
           exists vars : list (string * JSON),
             doc = JObject [("query", JString query);
                            ("variables", JObject vars)]
             /\ map fst vars = map fst (sorted_entries variables)
             /\ forall k j, In (k, j) vars <->
                   exists v, variables !! k = Some v /\ json_Marshal v = inl j).

End Client.

Arguments mkRun {P A} _ _ _.
Arguments value {P A} _.
Arguments after {P A} _.
Arguments calls {P A} _.

(** ** A reference implementation of the collaborators

    A reader and writer for JSON text in the manner of encoding/json, a
    decoder of the [out] struct, and the decoders of internal/jsonutil for
    one destination, the shape [{ viewer: { login: string, id: int } }] of
    the specification's scenario. *)

Module Reference.

(** The error values of this implementation. *)
Inductive Err : Type :=
| EOF                                          (* io.EOF: an empty body *)
| SyntaxError                                  (* malformed or truncated text *)
| UnmarshalTypeError (value target : string)   (* *json.UnmarshalTypeError *)
| UnsupportedTypeError (type : string)         (* *json.UnsupportedTypeError *)
| URLError (msg : string)                      (* *url.Error *)
| SelectionMismatchError (alias : string)
| ScalarRangeError (literal : string).

(** The values a variable can be bound to. *)
Inductive Var : Type :=
| VInt (n : Z)
| VString (s : string)
| VChan.                                          (* a channel: no JSON form *)

(** *** Reading JSON text *)

Definition byte (n : nat) : ascii := ascii_of_nat n.

Definition is_ws (c : ascii) : bool :=
  existsb (Ascii.eqb c) [byte 32; byte 9; byte 10; byte 13].

Fixpoint skip_ws (s : string) : string :=
  match s with
  | String c r => if is_ws c then skip_ws r else s
  | EmptyString => s
  end.

Definition is_digit (c : ascii) : bool :=
  let n := nat_of_ascii c in ((48 <=? n) && (n <=? 57))%nat.

Fixpoint take_digits (s : string) : string * string :=
  match s with
  | String c r =>
      if is_digit c then let '(ds, r') := take_digits r in (String c ds, r')
      else (EmptyString, s)
  | EmptyString => (EmptyString, s)
  end.

(** The character an escape letter stands for; [\u] is not read. *)
Definition unescape (c : ascii) : option ascii :=
  if Ascii.eqb c (byte 34) then Some (byte 34)
  else if Ascii.eqb c (byte 92) then Some (byte 92)
  else if Ascii.eqb c (byte 47) then Some (byte 47)
  else if Ascii.eqb c "b" then Some (byte 8)
  else if Ascii.eqb c "f" then Some (byte 12)
  else if Ascii.eqb c "n" then Some (byte 10)
  else if Ascii.eqb c "r" then Some (byte 13)
  else if Ascii.eqb c "t" then Some (byte 9)
  else None.

(** A string literal, read from behind its opening quote. *)
Fixpoint read_string (s : string) : option (string * string) :=
  match s with
  | EmptyString => None
  | String c r =>
      if Ascii.eqb c (byte 34) then Some (EmptyString, r)
      else if Ascii.eqb c (byte 92) then
        match r with
        | String e r' =>
            match unescape e, read_string r' with
            | Some c', Some (t, rest) => Some (String c' t, rest)
            | _, _ => None
            end
        | EmptyString => None
        end
      else if (nat_of_ascii c <? 32)%nat then None
      else
        match read_string r with
        | Some (t, rest) => Some (String c t, rest)
        | None => None
        end
  end.

Definition starts_with (c : ascii) (s : string) : option string :=
  match s with
  | String c' r => if Ascii.eqb c c' then Some r else None
  | EmptyString => None
  end.

(** A number literal: an optional minus sign, the digits of the integer
    part (no leading zero in front of another digit), an optional point
    with digits, an optional exponent with sign and digits. *)
Definition read_number (s : string) : option (string * string) :=
  let '(sign, s1) := match starts_with "-" s with
                     | Some r => ("-", r)
                     | None => ("", s)
                     end in
  let '(ds, s2) := take_digits s1 in
  let '(int_part, s2) :=
    match ds with
    | String "0" (String _ _) => ("0", substring 1 (String.length s1) s1)
    | _ => (ds, s2)
    end in
  if String.eqb int_part "" then None else
  let frac :=
    match starts_with "." s2 with
    | Some r =>
        let '(fs, r') := take_digits r in
        if String.eqb fs "" then None else Some ("." +:+ fs, r')
    | None => Some ("", s2)
    end in
  match frac with
  | None => None
  | Some (frac_part, s3) =>
      let after_e :=
        match s3 with
        | String c r => if Ascii.eqb c "e" || Ascii.eqb c "E"
                        then Some (String c EmptyString, r) else None
        | EmptyString => None
        end in
      match after_e with
      | None => Some (sign +:+ int_part +:+ frac_part, s3)
      | Some (e, r) =>
          let '(esign, r1) :=
            match r with
            | String c r' => if Ascii.eqb c "+" || Ascii.eqb c "-"
                             then (String c EmptyString, r') else ("", r)
            | EmptyString => ("", r)
            end in
          let '(es, r2) := take_digits r1 in
          if String.eqb es "" then None
          else Some (sign +:+ int_part +:+ frac_part +:+ e +:+ esign +:+ es, r2)
      end
  end.

Definition read_word (word : string) (j : JSON) (s : string)
    : option (JSON * string) :=
  if String.prefix word s
  then Some (j, substring (String.length word) (String.length s) s)
  else None.

(** The text of [s] in front of its suffix [rest]. *)
Definition text_before (s rest : string) : string :=
  substring 0 (String.length s - String.length rest) s.

(** A member of an object as read: its value and the text of the value. *)
Definition Member : Type := string * (bytes * JSON).

Definition members_of (ms : list Member) : list (string * JSON) :=
  map (fun m => (m.1, m.2.2)) ms.

Definition is_byte (c : ascii) (s : string) : bool :=
  match s with
  | String c' _ => Ascii.eqb c c'
  | EmptyString => false
  end.

Definition tail (s : string) : string :=
  match s with
  | String _ r => r
  | EmptyString => EmptyString
  end.

(** The first value of the text and what follows it.  Each call uses up
    one unit of [fuel]; the length of the text is enough. *)
Fixpoint read_value (fuel : nat) (s : string) : option (JSON * string) :=
  match fuel with
  | O => None
  | S f =>
      let s := skip_ws s in
      if is_byte "{" s then
        if is_byte "}" (skip_ws (tail s)) then
          Some (JObject [], tail (skip_ws (tail s)))
        else
          match read_members f (tail s) with
          | Some (ms, rest) => Some (JObject (members_of ms), rest)
          | None => None
          end
      else if is_byte "[" s then
        if is_byte "]" (skip_ws (tail s)) then
          Some (JArray [], tail (skip_ws (tail s)))
        else
          match read_elements f (tail s) with
          | Some (vs, rest) => Some (JArray vs, rest)
          | None => None
          end
      else if is_byte (byte 34) s then
        match read_string (tail s) with
        | Some (t, rest) => Some (JString t, rest)
        | None => None
        end
      else if is_byte "t" s then read_word "true" (JBool true) s
      else if is_byte "f" s then read_word "false" (JBool false) s
      else if is_byte "n" s then read_word "null" JNull s
      else
        match read_number s with
        | Some (lit, rest) => Some (JNumber lit, rest)
        | None => None
        end
  end
with read_members (fuel : nat) (s : string) : option (list Member * string) :=
  match fuel with
  | O => None
  | S f =>
      let s := skip_ws s in
      if is_byte (byte 34) s then
        match read_string (tail s) with
        | Some (k, r1) =>
            if is_byte ":" (skip_ws r1) then
              let r2 := skip_ws (tail (skip_ws r1)) in
              match read_value f r2 with
              | Some (v, r3) =>
                  let m : Member := (k, (text_before r2 r3, v)) in
                  if is_byte "," (skip_ws r3) then
                    match read_members f (tail (skip_ws r3)) with
                    | Some (ms, rest) => Some (m :: ms, rest)
                    | None => None
                    end
                  else if is_byte "}" (skip_ws r3) then
                    Some ([m], tail (skip_ws r3))
                  else None
              | None => None
              end
            else None
        | None => None
        end
      else None
  end
with read_elements (fuel : nat) (s : string) : option (list JSON * string) :=
  match fuel with
  | O => None
  | S f =>
      match read_value f s with
      | Some (v, r) =>
          if is_byte "," (skip_ws r) then
            match read_elements f (tail (skip_ws r)) with
            | Some (vs, rest) => Some (v :: vs, rest)
            | None => None
            end
          else if is_byte "]" (skip_ws r) then Some ([v], tail (skip_ws r))
          else None
      | None => None
      end
  end.

Definition enough (s : string) : nat := S (String.length s).

(** JSON text is written below with an apostrophe where the text has a
    double quote. *)
Fixpoint text (s : string) : bytes :=
  match s with
  | EmptyString => EmptyString
  | String c r => String (if Ascii.eqb c "'" then byte 34 else c) (text r)
  end.

(** *** Decoding the [out] struct *)

(** The word encoding/json uses for a value in a type error. *)
Definition describe (j : JSON) : string :=
  match j with
  | JNull => "null"
  | JBool _ => "bool"
  | JNumber lit => "number"
  | JString _ => "string"
  | JArray _ => "array"
  | JObject _ => "object"
  end.

Fixpoint lower (s : string) : string :=
  match s with
  | EmptyString => EmptyString
  | String c r => String (lower_byte c) (lower r)
  end.

(** A key names a field when it is the field's name up to the case of
    its letters. *)
Definition names (key field : string) : bool :=
  String.eqb (lower key) (lower field).

Fixpoint digits_value (acc : Z) (s : string) : Z :=
  match s with
  | EmptyString => acc
  | String c r => digits_value (10 * acc + (Z.of_nat (nat_of_ascii c) - 48)) r
  end.

(** The value of a literal with a sign and digits only. *)
Definition integer_literal (lit : string) : option Z :=
  let '(neg, ds) := match starts_with "-" lit with
                    | Some r => (true, r)
                    | None => (false, lit)
                    end in
  if negb (String.eqb ds "") && all_bytes is_digit ds
  then Some (if neg then - digits_value 0 ds else digits_value 0 ds)
  else None.

(** A number for a field of type [int] (64 bits). *)
Definition decode_int (target : string) (old : Z) (j : JSON) : Z + Err :=
  match j with
  | JNull => inl old
  | JNumber lit =>
      match integer_literal lit with
      | Some n =>
          if (- 2 ^ 63 <=? n) && (n <? 2 ^ 63) then inl n
          else inr (UnmarshalTypeError ("number " +:+ lit) target)
      | None => inr (UnmarshalTypeError ("number " +:+ lit) target)
      end
  | _ => inr (UnmarshalTypeError (describe j) target)
  end.

(** Decoding the members of an object one after the other into a struct;
    a later member for the same field is decoded over the earlier one. *)
Fixpoint decode_members {S : Type}
    (field : string -> JSON -> S -> S + Err)
    (ms : list (string * JSON)) (acc : S) : S + Err :=
  match ms with
  | [] => inl acc
  | (k, v) :: rest =>
      match field k v acc with
      | inl acc' => decode_members field rest acc'
      | inr e => inr e
      end
  end.

(** Decoding the elements of an array into a fresh slice. *)
Fixpoint decode_elements {S : Type} (element : JSON -> S + Err)
    (vs : list JSON) : list S + Err :=
  match vs with
  | [] => inl []
  | v :: rest =>
      match element v with
      | inl x =>
          match decode_elements element rest with
          | inl xs => inl (x :: xs)
          | inr e => inr e
          end
      | inr e => inr e
      end
  end.

Definition Location_field (k : string) (v : JSON) (l : Location)
    : Location + Err :=
  if names k "Line" then
    match decode_int "int" (Line l) v with
    | inl n => inl (mkLocation n (Column l))
    | inr e => inr e
    end
  else if names k "Column" then
    match decode_int "int" (Column l) v with
    | inl n => inl (mkLocation (Line l) n)
    | inr e => inr e
    end
  else inl l.

Definition Location_type : string := "struct { Line int; Column int }".

Definition decode_Location (v : JSON) : Location + Err :=
  match v with
  | JNull => inl (mkLocation 0 0)
  | JObject ms => decode_members Location_field ms (mkLocation 0 0)
  | _ => inr (UnmarshalTypeError (describe v) Location_type)
  end.

Definition ProtocolError_field (k : string) (v : JSON) (p : ProtocolError)
    : ProtocolError + Err :=
  if names k "Message" then
    match v with
    | JNull => inl p
    | JString s => inl (mkProtocolError s (Locations p))
    | _ => inr (UnmarshalTypeError (describe v) "string")
    end
  else if names k "Locations" then
    match v with
    | JNull => inl (mkProtocolError (Message p) [])
    | JArray vs =>
        match decode_elements decode_Location vs with
        | inl ls => inl (mkProtocolError (Message p) ls)
        | inr e => inr e
        end
    | _ => inr (UnmarshalTypeError (describe v) ("[]" +:+ Location_type))
    end
  else inl p.

Definition ProtocolError_type : string :=
  "struct { Message string; Locations []" +:+ Location_type +:+ " }".

Definition decode_ProtocolError (v : JSON) : ProtocolError + Err :=
  match v with
  | JNull => inl (mkProtocolError "" [])
  | JObject ms => decode_members ProtocolError_field ms (mkProtocolError "" [])
  | _ => inr (UnmarshalTypeError (describe v) ProtocolError_type)
  end.

(** The field [Errors errors]: an array, or null for a nil slice. *)
Definition decode_errors (v : JSON) : errors + Err :=
  match v with
  | JNull => inl []
  | JArray vs => decode_elements decode_ProtocolError vs
  | _ => inr (UnmarshalTypeError (describe v) "graphql.errors")
  end.

(** One member of the top-level object.  The field [Data] takes the text
    of any value as it stands, and is nil for null; keys that name no field
    are skipped. *)
Definition out_field (m : Member) (o : out_t) : out_t + Err :=
  let '(k, (raw, v)) := m in
  if names k "Data" then
    match v with
    | JNull => inl (mkOut None (out_Errors o))
    | _ => inl (mkOut (Some raw) (out_Errors o))
    end
  else if names k "Errors" then
    match decode_errors v with
    | inl es => inl (mkOut (out_Data o) es)
    | inr e => inr e
    end
  else inl o.

Fixpoint out_fields (ms : list Member) (o : out_t) : out_t + Err :=
  match ms with
  | [] => inl o
  | m :: rest =>
      match out_field m o with
      | inl o' => out_fields rest o'
      | inr e => inr e
      end
  end.

Definition out_type : string :=
  "struct { Data *json.RawMessage; Errors graphql.errors }".

(** The call [json.NewDecoder(body).Decode(&out)]: the first value of the
    body is read; what follows it is left unread. *)
Definition decode_out (body : bytes) : out_t + Err :=
  let s := skip_ws body in
  let zero := mkOut None [] in
  if String.eqb s "" then inr EOF
  else if is_byte "{" s && negb (is_byte "}" (skip_ws (tail s))) then
    match read_members (enough s) (tail s) with
    | Some (ms, _) => out_fields ms zero
    | None => inr SyntaxError
    end
  else
    match read_value (enough s) s with
    | Some (JNull, _) => inl zero
    | Some (JObject _, _) => inl zero
    | Some (v, _) => inr (UnmarshalTypeError (describe v) out_type)
    | None => inr SyntaxError
    end.

(** *** Writing JSON text *)

Definition hex_digit (n : nat) : ascii :=
  if (n <? 10)%nat then byte (48 + n) else byte (87 + n).

Definition hex2 (c : ascii) : string :=
  let n := nat_of_ascii c in
  String (hex_digit (n / 16)) (String (hex_digit (n mod 16)) EmptyString).

Definition backslash (c : ascii) : string :=
  String (byte 92) (String c EmptyString).

(** The characters of a string as the encoder writes them between the
    quotes; bytes above 127 are written as they are. *)
Fixpoint json_escape (s : string) : string :=
  match s with
  | EmptyString => EmptyString
  | String c r =>
      let n := nat_of_ascii c in
      (if (n =? 34)%nat || (n =? 92)%nat then backslash c
       else if (n =? 10)%nat then backslash "n"
       else if (n =? 13)%nat then backslash "r"
       else if (n =? 9)%nat then backslash "t"
       else if (n <? 32)%nat || (n =? 60)%nat || (n =? 62)%nat || (n =? 38)%nat
       then backslash "u" +:+ "00" +:+ hex2 c
       else String c EmptyString) +:+ json_escape r
  end.

Definition quoted (inner : string) : string :=
  String (byte 34) (inner +:+ String (byte 34) EmptyString).

(** The compact text of a document. *)
Fixpoint render (j : JSON) : bytes :=
  match j with
  | JNull => "null"
  | JBool true => "true"
  | JBool false => "false"
  | JNumber lit => lit
  | JString s => quoted (json_escape s)
  | JArray vs =>
      "[" +:+ (fix elements (l : list JSON) : string :=
                 match l with
                 | [] => ""
                 | [v] => render v
                 | v :: rest => render v +:+ "," +:+ elements rest
                 end) vs +:+ "]"
  | JObject ms =>
      "{" +:+ (fix members (l : list (string * JSON)) : string :=
                 match l with
                 | [] => ""
                 | [(k, v)] => quoted (json_escape k) +:+ ":" +:+ render v
                 | (k, v) :: rest =>
                     quoted (json_escape k) +:+ ":" +:+ render v
                     +:+ "," +:+ members rest
                 end) ms +:+ "}"
  end.

(** Marshalling the value of a variable. *)
Definition marshal_Var (v : Var) : JSON + Err :=
  match v with
  | VInt n => inl (JNumber (NilZero.string_of_int (Z.to_int n)))
  | VString s => inl (JString s)
  | VChan => inr (UnsupportedTypeError "chan int")
  end.

(** The quoting of [strconv.Quote], for bytes below 128. *)
Fixpoint quote_escape (s : string) : string :=
  match s with
  | EmptyString => EmptyString
  | String c r =>
      let n := nat_of_ascii c in
      (if (n =? 34)%nat || (n =? 92)%nat then backslash c
       else if (n =? 7)%nat then backslash "a"
       else if (n =? 8)%nat then backslash "b"
       else if (n =? 12)%nat then backslash "f"
       else if (n =? 10)%nat then backslash "n"
       else if (n =? 13)%nat then backslash "r"
       else if (n =? 9)%nat then backslash "t"
       else if (n =? 11)%nat then backslash "v"
       else if (n <? 32)%nat || (n =? 127)%nat then backslash "x" +:+ hex2 c
       else String c EmptyString) +:+ quote_escape r
  end.

Definition Quote (s : string) : string := quoted (quote_escape s).

(** *** net/url *)

Definition is_control (c : ascii) : bool :=
  let n := nat_of_ascii c in ((n <? 32) || (n =? 127))%nat.

(** Parsing as [url.Parse]: an address with a control character is refused; the
    address is kept as text. *)
Definition parse_url (u : string) : string + Err :=
  if all_bytes (fun c => negb (is_control c)) u then inl u
  else inr (URLError "net/url: invalid control character in URL").

(** *** The destination and its decoders *)

(** The shape [{ viewer: { login: string, id: int } }]. *)
Record Viewer := mkViewer { login : string; id : Z }.
Record ViewerShape := mkShape { viewer : Viewer }.

Inductive Mode : Type := Replace | Merge.

(** Modelled from the spec: the query constructors are not in the sources.
    The shape binds no argument, so the document declares no variable
    (spec 4.1, 4.2, and the first scenario of spec 8). *)
Definition viewer_query (q : ViewerShape) (variables : gmap string Var)
    : string := "query { viewer { login id } }".

(** Modelled from the spec: as [viewer_query], with the operation kind
    [mutation]. *)
Definition viewer_mutation (m : ViewerShape) (variables : gmap string Var)
    : string := "mutation { viewer { login id } }".

Inductive Number : Type :=
| Integer (n : Z)
| Fractional
| NotANumber.

(** The value of a number literal, when it is a whole number. *)
Definition number_value (lit : string) : Number :=
  let '(neg, s0) := match starts_with "-" lit with
                    | Some r => (true, r)
                    | None => (false, lit)
                    end in
  let '(ds, s1) := take_digits s0 in
  let '(fs, s2) := match starts_with "." s1 with
                   | Some r => take_digits r
                   | None => (EmptyString, s1)
                   end in
  let exponent :=
    if is_byte "e" s2 || is_byte "E" s2 then
      let r := tail s2 in
      if is_byte "-" r then
        let '(es, rest) := take_digits (tail r) in
        if String.eqb rest "" then Some (- digits_value 0 es) else None
      else
        let '(es, rest) := take_digits (if is_byte "+" r then tail r else r) in
        if String.eqb rest "" then Some (digits_value 0 es) else None
    else if String.eqb s2 "" then Some 0 else None in
  match exponent with
  | None => NotANumber
  | Some e =>
      if String.eqb ds "" then NotANumber else
      let mantissa := digits_value 0 (ds +:+ fs) in
      let scale := e - Z.of_nat (String.length fs) in
      let signed (n : Z) := if neg then - n else n in
      if 0 <=? scale then Integer (signed (mantissa * 10 ^ scale))
      else if mantissa mod 10 ^ (- scale) =? 0
           then Integer (signed (mantissa / 10 ^ (- scale)))
           else Fractional
  end.

(** The member of an object under an alias. *)
Definition member (alias : string) (ms : list (string * JSON)) : option JSON :=
  match List.find (fun m => String.eqb m.1 alias) ms with
  | Some m => Some m.2
  | None => None
  end.

(** Modelled from the spec: internal/jsonutil is not in the sources.  The
    member [login], of kind string (spec 4.4): it is read under its alias;
    in replace mode null or an absent key resets it, in merge mode it
    changes only for a new value; an absent key is a
    [SelectionMismatchError], the shape having no optional member; a value
    of another kind does not honour the selection. *)
Definition decode_login (mode : Mode) (ms : list (string * JSON)) (v : Viewer)
    : Viewer * option Err :=
  let reset := match mode with
               | Replace => mkViewer "" (id v)
               | Merge => v
               end in
  match member "login" ms with
  | None => (reset, Some (SelectionMismatchError "login"))
  | Some JNull => (reset, None)
  | Some (JString s) => (mkViewer s (id v), None)
  | Some _ => (v, Some (SelectionMismatchError "login"))
  end.

(** Modelled from the spec: the member [id], of kind int (spec 4.4): as
    [decode_login]; a number with a fractional part that is not zero, or
    outside of 64 bits, is a [ScalarRangeError]. *)
Definition decode_id (mode : Mode) (ms : list (string * JSON)) (v : Viewer)
    : Viewer * option Err :=
  let reset := match mode with
               | Replace => mkViewer (login v) 0
               | Merge => v
               end in
  match member "id" ms with
  | None => (reset, Some (SelectionMismatchError "id"))
  | Some JNull => (reset, None)
  | Some (JNumber lit) =>
      match number_value lit with
      | Integer n =>
          if (- 2 ^ 63 <=? n) && (n <? 2 ^ 63) then (mkViewer (login v) n, None)
          else (v, Some (ScalarRangeError lit))
      | _ => (v, Some (ScalarRangeError lit))
      end
  | Some _ => (v, Some (SelectionMismatchError "id"))
  end.

(** Modelled from the spec: the composite member [viewer] (spec 4.4); its
    members are decoded in the order of the selection, and the first error
    ends the decoding, what was written before it staying written. *)
Definition decode_viewer (mode : Mode) (ms : list (string * JSON))
    (q : ViewerShape) : ViewerShape * option Err :=
  let reset := match mode with
               | Replace => mkShape (mkViewer "" 0)
               | Merge => q
               end in
  match member "viewer" ms with
  | None => (reset, Some (SelectionMismatchError "viewer"))
  | Some JNull => (reset, None)
  | Some (JObject fields) =>
      let '(v1, e1) := decode_login mode fields (viewer q) in
      match e1 with
      | Some e => (mkShape v1, Some e)
      | None =>
          let '(v2, e2) := decode_id mode fields v1 in
          (mkShape v2, e2)
      end
  | Some _ => (q, Some (SelectionMismatchError "viewer"))
  end.

(** Modelled from the spec: the entry points of internal/jsonutil, which is
    not in the sources.  The payload is an object (spec 3); keys outside
    of the selection are ignored (spec 4.4). *)
Definition decode_payload (mode : Mode) (data : bytes) (q : ViewerShape)
    : ViewerShape * option Err :=
  match read_value (enough data) data with
  | Some (JObject ms, _) => decode_viewer mode ms q
  | Some (_, _) => (q, Some (SelectionMismatchError "data"))
  | None => (q, Some SyntaxError)
  end.

(** *** The platform *)

#[export] Instance platform : Platform := {|
  Shape := ViewerShape;
  Value := Var;
  Net := nat;
  ExtErr := Err;
  URL := string;
  Deadline := unit;
  json_Marshal := marshal_Var;
  json_render := render;
  json_Decode := decode_out;
  url_Parse := parse_url;
  strconv_Quote := Quote;
  UnmarshalGraphQL := decode_payload Replace;
  MergeUnmarshalGraphQL := decode_payload Merge;
  constructQuery := viewer_query;
  constructMutation := viewer_mutation
|}.

(** A server that answers every request with [resp]; the state of the
    network is the number of requests it has seen. *)
Definition answering (resp : Response) : HTTPClient :=
  fun seen req => (inl resp, S seen).

(** A server that cannot be reached. *)
Definition unreachable : HTTPClient :=
  fun seen req => (inr (URLError "dial tcp: connection refused"), S seen).

Definition endpoint : string := "http://localhost/graphql".

Definition client (resp : Response) : Client :=
  NewClient unreachable endpoint (Some (answering resp)).

Definition start : World := mkWorld (mkShape (mkViewer "" 0)) 0%nat.

Definition OK (body : string) : Response := mkResponse "200 OK" 200 (text body).

(** The request this client posts for a document, [vars] being the members
    of the "variables" object. *)
Definition posted (query : string) (vars : list (string * JSON)) : Request :=
  let members := match vars with
                 | [] => []
                 | _ => [("variables", JObject vars)]
                 end in
  let body := render (JObject (("query", JString query) :: members)) in
  Header_Set (mkRequest MethodPost endpoint ∅ (body +:+ newline) tt)
             "Content-Type" "application/json".

(** The document of the shape, and some answers of a server. *)
Definition document : string := "query { viewer { login id } }".

Definition octocat : string := "{'viewer':{'login':'octocat','id':1}}".

Definition octocat_bad_id : string := "{'viewer':{'login':'octocat','id':1.5}}".

Definition good_body : string := "{'data':" +:+ octocat +:+ "}".

Definition both_body : string :=
  "{'data':" +:+ octocat +:+ ",'errors':[{'message':'x'}]}".

Definition bad_id_body : string :=
  "{'data':" +:+ octocat_bad_id +:+ ",'errors':[{'message':'x'}]}".

Definition errors_body : string := "{'errors':[{'message':'x'},{'message':'y'}]}".

Definition null_body : string := "{'data':null}".

Definition mistyped_body : string := "{'data':" +:+ octocat +:+ ",'errors':{}}".

Definition created : Response := mkResponse "201 Created" 201 (text good_body).

Definition unavailable : Response :=
  mkResponse "503 Service Unavailable" 503 "<html>try later</html>".

(** Two bindings for the variables of a request. *)
Definition two_bindings : gmap string Var :=
  <["b" := VInt (-42)]> (<["a" := VString "x"]> ∅).

Definition x_and_y : errors := [mkProtocolError "x" []; mkProtocolError "y" []].

(** A binding to a channel, which has no JSON form. *)
Definition channel_binding : gmap string Var := <["c" := VChan]> ∅.

(** A client made with a nil transport, the default one being out of
    reach. *)
Definition offline : Client := NewClient unreachable endpoint None.

End Reference.

(** * Properties of the client *)

Section Properties.
Context `{P : Platform}.

Implicit Types (c : Client) (ctx : option Deadline) (query : string).
Implicit Types (merge : bool) (variables : gmap string Value) (w : World).
Implicit Types (req : Request) (resp : Response) (n : Net) (out : out_t).

(** ** The paths through [Do] *)

Ltac unfold_Do :=
  unfold Query, Mutate, Do, bind, defer, call, httpClient_Do, Body_Close,
    ReadAll, Decode, decode_into, fail, ret, returned; cbn.

Lemma request_of_Some c ctx query variables req :
  request_of c ctx query variables = Some req ->
  exists buf req0,
    Encode (mkIn query variables) = inl buf
    /\ NewRequestWithContext ctx MethodPost (url c) buf = inl req0
    /\ req = Header_Set req0 "Content-Type" "application/json".
Proof.
  unfold request_of.
  destruct (Encode _) as [buf|] eqn:H1; [|discriminate].
  destruct (NewRequestWithContext _ _ _ _) as [req0|] eqn:H2; [|discriminate].
  intros [= <-]. exists buf, req0. repeat split; assumption || reflexivity.
Qed.

Lemma Do_encode_fails c ctx query merge variables w e :
  Encode (mkIn query variables) = inr e ->
  Do c ctx query merge variables w = mkRun (inr e) w [EvEncode].
Proof. intros H. unfold_Do. rewrite H. reflexivity. Qed.

Lemma Do_request_fails c ctx query merge variables w buf e :
  Encode (mkIn query variables) = inl buf ->
  NewRequestWithContext ctx MethodPost (url c) buf = inr e ->
  Do c ctx query merge variables w = mkRun (inr e) w [EvEncode; EvNewRequest].
Proof. intros H1 H2. unfold_Do. rewrite H1. cbn. rewrite H2. reflexivity. Qed.

Lemma Do_transport_fails c ctx query merge variables w req e n :
  request_of c ctx query variables = Some req ->
  httpClient c (net w) req = (inr e, n) ->
  Do c ctx query merge variables w
  = mkRun (inr (External e)) (mkWorld (dest w) n)
          [EvEncode; EvNewRequest; EvRoundTrip req].
Proof.
  intros (buf & req0 & H1 & H2 & ->)%request_of_Some H3.
  unfold_Do. rewrite H1. cbn. rewrite H2. cbn. rewrite H3. reflexivity.
Qed.

Lemma Do_status_fails c ctx query merge variables w req resp n :
  Receives c ctx query variables w req resp n ->
  StatusCode resp <> StatusOK ->
  Do c ctx query merge variables w
  = mkRun (inr (status_error (Status resp) (RespBody resp)))
          (mkWorld (dest w) n)
          [EvEncode; EvNewRequest; EvRoundTrip req; EvReadAll; EvClose].
Proof.
  intros [(buf & req0 & H1 & H2 & ->)%request_of_Some H3] Hs.
  apply Z.eqb_neq in Hs.
  unfold_Do. rewrite H1. cbn. rewrite H2. cbn. rewrite H3. cbn.
  rewrite Hs. reflexivity.
Qed.

Lemma Do_envelope_fails c ctx query merge variables w req resp n e :
  Receives c ctx query variables w req resp n ->
  StatusCode resp = StatusOK ->
  json_Decode (RespBody resp) = inr e ->
  Do c ctx query merge variables w
  = mkRun (inr (External e)) (mkWorld (dest w) n)
          [EvEncode; EvNewRequest; EvRoundTrip req; EvDecode; EvClose].
Proof.
  intros [(buf & req0 & H1 & H2 & ->)%request_of_Some H3] Hs He.
  apply Z.eqb_eq in Hs.
  unfold_Do. rewrite H1. cbn. rewrite H2. cbn. rewrite H3. cbn.
  rewrite Hs. cbn. rewrite He. reflexivity.
Qed.

Lemma Do_without_data c ctx query merge variables w req resp n out :
  Envelope c ctx query variables w req resp n out ->
  out_Data out = None ->
  Do c ctx query merge variables w
  = mkRun (verdict (out_Errors out)) (mkWorld (dest w) n)
          [EvEncode; EvNewRequest; EvRoundTrip req; EvDecode; EvClose].
Proof.
  intros ([(buf & req0 & H1 & H2 & ->)%request_of_Some H3] & Hs & He) Hd.
  apply Z.eqb_eq in Hs.
  unfold_Do. rewrite H1. cbn. rewrite H2. cbn. rewrite H3. cbn.
  rewrite Hs. cbn. rewrite He. cbn. rewrite Hd. cbn.
  unfold verdict. destruct (out_Errors out); reflexivity.
Qed.

Lemma Do_with_data c ctx query merge variables w req resp n out data :
  Envelope c ctx query variables w req resp n out ->
  out_Data out = Some data ->
  Do c ctx query merge variables w
  = mkRun (match snd (payload_decoder merge data (dest w)) with
           | Some e => inr (External e)
           | None => verdict (out_Errors out)
           end)
          (mkWorld (fst (payload_decoder merge data (dest w))) n)
          [EvEncode; EvNewRequest; EvRoundTrip req; EvDecode;
           decode_event merge data; EvClose].
Proof.
  intros ([(buf & req0 & H1 & H2 & ->)%request_of_Some H3] & Hs & He) Hd.
  apply Z.eqb_eq in Hs.
  unfold_Do. rewrite H1. cbn. rewrite H2. cbn. rewrite H3. cbn.
  rewrite Hs. cbn. rewrite He. cbn. rewrite Hd.
  unfold payload_decoder, decode_event, verdict.
  destruct merge; cbn.
  - destruct (MergeUnmarshalGraphQL data (dest w)) as [d [e|]]; cbn;
      [reflexivity|].
    destruct (out_Errors out); reflexivity.
  - destruct (UnmarshalGraphQL data (dest w)) as [d [e|]]; cbn;
      [reflexivity|].
    destruct (out_Errors out); reflexivity.
Qed.

Lemma request_of_intro c ctx query variables buf req0 :
  Encode (mkIn query variables) = inl buf ->
  NewRequestWithContext ctx MethodPost (url c) buf = inl req0 ->
  request_of c ctx query variables
  = Some (Header_Set req0 "Content-Type" "application/json").
Proof. intros H1 H2. unfold request_of. rewrite H1, H2. reflexivity. Qed.

(** Every run of [Do] follows one of seven paths. *)
Lemma Do_paths c ctx query merge variables w :
  let r := Do c ctx query merge variables w in
  (exists e, Encode (mkIn query variables) = inr e
             /\ r = mkRun (inr e) w [EvEncode])
  \/ (exists buf e,
        Encode (mkIn query variables) = inl buf
        /\ NewRequestWithContext ctx MethodPost (url c) buf = inr e
        /\ r = mkRun (inr e) w [EvEncode; EvNewRequest])
  \/ (exists req e n,
        request_of c ctx query variables = Some req
        /\ httpClient c (net w) req = (inr e, n)
        /\ r = mkRun (inr (External e)) (mkWorld (dest w) n)
                     [EvEncode; EvNewRequest; EvRoundTrip req])
  \/ (exists req resp n,
        Receives c ctx query variables w req resp n
        /\ StatusCode resp <> StatusOK
        /\ r = mkRun (inr (status_error (Status resp) (RespBody resp)))
                     (mkWorld (dest w) n)
                     [EvEncode; EvNewRequest; EvRoundTrip req; EvReadAll;
                      EvClose])
  \/ (exists req resp n e,
        Receives c ctx query variables w req resp n
        /\ StatusCode resp = StatusOK
        /\ json_Decode (RespBody resp) = inr e
        /\ r = mkRun (inr (External e)) (mkWorld (dest w) n)
                     [EvEncode; EvNewRequest; EvRoundTrip req; EvDecode;
                      EvClose])
  \/ (exists req resp n out,
        Envelope c ctx query variables w req resp n out
        /\ out_Data out = None
        /\ r = mkRun (verdict (out_Errors out)) (mkWorld (dest w) n)
                     [EvEncode; EvNewRequest; EvRoundTrip req; EvDecode;
                      EvClose])
  \/ (exists req resp n out data,
        Envelope c ctx query variables w req resp n out
        /\ out_Data out = Some data
        /\ r = mkRun (match snd (payload_decoder merge data (dest w)) with
                      | Some e => inr (External e)
                      | None => verdict (out_Errors out)
                      end)
                     (mkWorld (fst (payload_decoder merge data (dest w))) n)
                     [EvEncode; EvNewRequest; EvRoundTrip req; EvDecode;
                      decode_event merge data; EvClose]).
Proof.
  intros r. subst r.
  destruct (Encode (mkIn query variables)) as [buf|e] eqn:H1.
  2: { left. exists e. split; [reflexivity|].
       eapply Do_encode_fails; eassumption. }
  right.
  destruct (NewRequestWithContext ctx MethodPost (url c) buf)
    as [req0|e] eqn:H2.
  2: { left. exists buf, e. repeat split; try assumption.
       eapply Do_request_fails; eassumption. }
  right.
  pose proof (request_of_intro _ _ _ _ _ _ H1 H2) as Hreq.
  set (req := Header_Set req0 "Content-Type" "application/json") in *.
  destruct (httpClient c (net w) req) as [[resp|e] n] eqn:H3.
  2: { left. exists req, e, n. repeat split; try assumption.
       eapply Do_transport_fails; eassumption. }
  right.
  assert (Hrec : Receives c ctx query variables w req resp n)
    by (split; assumption).
  destruct (Z.eq_dec (StatusCode resp) StatusOK) as [Hs|Hs].
  2: { left. exists req, resp, n. repeat split; try assumption.
       eapply Do_status_fails; eassumption. }
  right.
  destruct (json_Decode (RespBody resp)) as [out|e] eqn:He.
  2: { left. exists req, resp, n, e. repeat split; try assumption.
       eapply Do_envelope_fails; eassumption. }
  right.
  assert (Henv : Envelope c ctx query variables w req resp n out)
    by (repeat split; assumption).
  destruct (out_Data out) as [data|] eqn:Hd.
  - right. exists req, resp, n, out, data. repeat split; try assumption.
    eapply Do_with_data; eassumption.
  - left. exists req, resp, n, out. repeat split; try assumption.
    eapply Do_without_data; eassumption.
Qed.

(** ** The request on the wire *)

Lemma marshal_entries_spec (kvs : list (string * Value))
    (vars : list (string * JSON)) :
  marshal_entries kvs = inl vars ->
  map fst vars = map fst kvs
  /\ forall k j, In (k, j) vars <->
       exists v, In (k, v) kvs /\ json_Marshal v = inl j.
Proof.
  revert vars. induction kvs as [|[k0 v0] rest IH]; intros vars; cbn.
  - intros [= <-]. split; [reflexivity|].
    intros k j. split; [intros []|intros (v & [] & _)].
  - destruct (json_Marshal v0) as [j0|] eqn:Hj; [|discriminate].
    destruct (marshal_entries rest) as [js|]; [|discriminate].
    intros [= <-]. destruct (IH js eq_refl) as [Hkeys Hin].
    split; [cbn; now rewrite Hkeys|].
    intros k j. cbn. rewrite Hin. split.
    + intros [[= <- <-]|(v & Hv & Hm)].
      * exists v0. split; [now left|assumption].
      * exists v. split; [now right|assumption].
    + intros (v & [[= <- <-]|Hv] & Hm).
      * left. congruence.
      * right. exists v. split; assumption.
Qed.

Lemma sorted_entries_In variables k (v : Value) :
  In (k, v) (sorted_entries variables) <-> variables !! k = Some v.
Proof.
  unfold sorted_entries.
  rewrite <- list_elem_of_In, merge_sort_Permutation.
  apply elem_of_map_to_list.
Qed.

Lemma NewRequest_fields ctx (u : string) (buf : bytes) req0 :
  NewRequestWithContext ctx MethodPost u buf = inl req0 ->
  Method req0 = "POST" /\ Header req0 = ∅ /\ Body req0 = buf.
Proof.
  unfold NewRequestWithContext.
  change (String.eqb MethodPost "") with false. cbv iota.
  change (validMethod MethodPost) with true. cbn.
  destruct ctx as [d|]; [|discriminate].
  destruct (url_Parse u) as [parsed|]; [|discriminate].
  intros [= <-]. repeat split.
Qed.

Lemma Encode_document query variables buf :
  Encode (mkIn query variables) = inl buf ->
  exists doc : JSON,
    buf = json_render doc +:+ newline
    /\ (size variables = 0%nat -> doc = JObject [("query", JString query)])
    /\ (size variables <> 0%nat ->
        exists vars : list (string * JSON),
          doc = JObject [("query", JString query); ("variables", JObject vars)]
          /\ map fst vars = map fst (sorted_entries variables)
          /\ forall k j, In (k, j) vars <->
                exists v, variables !! k = Some v /\ json_Marshal v = inl j).
Proof.
  unfold Encode, marshal_in. cbn.
  case_bool_decide as Hsize.
  - intros [= <-]. eexists. split; [reflexivity|]. split; [reflexivity|].
    intros Hne. contradiction.
  - destruct (marshal_entries (sorted_entries variables)) as [vars|] eqn:Hm;
      [|discriminate].
    intros [= <-]. eexists. split; [reflexivity|].
    split; [intros; contradiction|].
    intros _. exists vars. split; [reflexivity|].
    destruct (marshal_entries_spec _ _ Hm) as [Hkeys Hin]. split; [assumption|].
    intros k j. rewrite Hin. split; intros (v & Hv & Hj); exists v; split;
      try assumption; now apply sorted_entries_In.
Qed.

Lemma request_of_wire c ctx query variables req :
  request_of c ctx query variables = Some req ->
  wire_request query variables req.
Proof.
  intros (buf & req0 & H1 & H2 & ->)%request_of_Some.
  destruct (NewRequest_fields _ _ _ _ H2) as (Hm & Hh & Hb).
  unfold wire_request, Header_Set. cbn.
  split; [assumption|]. split.
  - change (CanonicalMIMEHeaderKey "Content-Type") with "Content-Type".
    apply lookup_insert_eq.
  - rewrite Hb. now apply Encode_document.
Qed.

(** ** Where the errors come from *)

Lemma Encode_error (i : in_t) (e : error) :
  Encode i = inr e -> as_errors e = None.
Proof.
  unfold Encode. destruct (marshal_in i); intros [= <-]. reflexivity.
Qed.

Lemma NewRequest_error ctx (m u : string) (buf : bytes) (e : error) :
  NewRequestWithContext ctx m u buf = inr e -> as_errors e = None.
Proof.
  unfold NewRequestWithContext.
  destruct (negb _); [intros [= <-]; reflexivity|].
  destruct ctx; [|intros [= <-]; reflexivity].
  destruct (url_Parse u); intros [= <-]. reflexivity.
Qed.

Lemma verdict_aggregate (es es' : errors) :
  verdict es = inr (ErrorsValue es') -> es' = es /\ es <> [].
Proof.
  unfold verdict. destruct es; cbn; [discriminate|].
  intros [= <-]. split; [reflexivity|discriminate].
Qed.

Lemma verdict_nonempty (es : errors) :
  es <> [] -> verdict es = inr (ErrorsValue es).
Proof. destruct es; [contradiction|reflexivity]. Qed.

Lemma decode_event_inj merge (d d' : bytes) :
  decode_event merge d = decode_event merge d' -> d = d'.
Proof. destruct merge; intros [= ->]; reflexivity. Qed.

(** No call of [Do] outside of the payload step is a decoder call. *)
Ltac no_decoder := repeat constructor.

Ltac absurd_In H :=
  cbn in H;
  repeat match type of H with
         | _ \/ _ => destruct H as [H|H]
         | False => destruct H
         | _ = _ => try discriminate H
         end.

(** ** The claims *)

(** C1, amended.  When the envelope carries a data payload and a non-empty
    errors list, and the payload decodes without error, [Do] has called the
    decoder the flag selects, the destination is what the decoder made of
    it, and the value returned is the aggregate of the errors list. *)
Theorem Do_partial_success c ctx query merge variables w req resp n out data :
  Envelope c ctx query variables w req resp n out ->
  out_Data out = Some data ->
  out_Errors out <> [] ->
  snd (payload_decoder merge data (dest w)) = None ->
  let r := Do c ctx query merge variables w in
  In (decode_event merge data) (calls r)
  /\ dest (after r) = fst (payload_decoder merge data (dest w))
  /\ returned r = Some (ErrorsValue (out_Errors out)).
Proof.
  intros Henv Hd Hes Hok r. subst r.
  rewrite (Do_with_data _ _ _ _ _ _ _ _ _ _ _ Henv Hd), Hok.
  unfold returned. cbn. rewrite (verdict_nonempty _ Hes).
  repeat split. tauto.
Qed.

(** C2.  The [Error] method of a non-empty errors list returns the message
    of its first element, and the list behind the error value is the list
    itself, with its length and entries; the list of the messages "x" and
    "y" has the message "x" and two entries. *)
Theorem errors_Error_first (e : errors) :
  e <> [] ->
  (exists first, e !! 0%nat = Some first
                 /\ errors_Error e = Some (Message first))
  /\ as_errors (ErrorsValue e) = Some e
  /\ (let xy := [mkProtocolError "x" []; mkProtocolError "y" []] in
      errors_Error xy = Some "x"
      /\ length <$> as_errors (ErrorsValue xy) = Some 2%nat).
Proof.
  intros He. destruct e as [|first rest]; [contradiction|].
  split; [exists first; split; reflexivity|].
  split; [reflexivity|]. split; reflexivity.
Qed.

(** C3.  With an empty errors list and a payload that, if present, decodes
    without error, [Do] returns nil; and an errors list that [Do] returns
    is never empty, so that its [Error] method does not fail. *)
Theorem empty_errors_no_aggregate c ctx query merge variables w :
  let r := Do c ctx query merge variables w in
  (forall req resp n out,
      Envelope c ctx query variables w req resp n out ->
      out_Errors out = [] ->
      (forall data, out_Data out = Some data ->
                    snd (payload_decoder merge data (dest w)) = None) ->
      returned r = None)
  /\ (forall es, returned r = Some (ErrorsValue es) ->
                 es <> [] /\ exists msg, errors_Error es = Some msg).
Proof.
  intros r. subst r. split.
  - intros req resp n out Henv Hes Hok.
    destruct (out_Data out) as [data|] eqn:Hd.
    + rewrite (Do_with_data _ _ _ _ _ _ _ _ _ _ _ Henv Hd), (Hok data eq_refl).
      rewrite Hes. reflexivity.
    + rewrite (Do_without_data _ _ _ _ _ _ _ _ _ _ Henv Hd), Hes. reflexivity.
  - intros es.
    assert (Hne : forall es0, verdict es0 = inr (ErrorsValue es) ->
                    es <> [] /\ exists msg, errors_Error es = Some msg).
    { intros es0 [-> Hne]%verdict_aggregate. split; [assumption|].
      destruct es0 as [|first rest]; [contradiction|].
      exists (Message first). reflexivity. }
    destruct (Do_paths c ctx query merge variables w)
      as [(e & He & ->)|[(buf & e & _ & He & ->)|[(req & e & n & _ & _ & ->)
         |[(req & resp & n & _ & _ & ->)|[(req & resp & n & e & _ & _ & _ & ->)
         |[(req & resp & n & out & _ & _ & ->)
         |(req & resp & n & out & data & _ & _ & ->)]]]]]];
      unfold returned; cbn.
    + intros [= ->]. apply Encode_error in He. discriminate.
    + intros [= ->]. apply NewRequest_error in He. discriminate.
    + discriminate.
    + discriminate.
    + discriminate.
    + destruct (verdict (out_Errors out)) eqn:Hv; [discriminate|].
      intros [= ->]. eauto.
    + destruct (snd (payload_decoder merge data (dest w))); [discriminate|].
      destruct (verdict (out_Errors out)) eqn:Hv; [discriminate|].
      intros [= ->]. eauto.
Qed.

(** C4, amended.  When the transport answers with a status code other than
    200, in particular one outside of the class 2xx, [Do] returns an error
    made of the status text and the quoted body, and the body is not
    decoded; with the status code 200 the body is decoded as an envelope. *)
Theorem Do_status_gate c ctx query merge variables w req resp n :
  Receives c ctx query variables w req resp n ->
  let r := Do c ctx query merge variables w in
  (StatusCode resp <> 200 ->
     returned r = Some (errorString
                          ("non-200 OK status code: " +:+ Status resp
                           +:+ " body: " +:+ strconv_Quote (RespBody resp)))
     /\ Forall (fun ev => is_envelope_decode ev = false) (calls r)
     /\ Forall (fun ev => is_payload_decode ev = false) (calls r)
     /\ dest (after r) = dest w)
  /\ (is_2xx (StatusCode resp) = false -> StatusCode resp <> 200)
  /\ (StatusCode resp = 200 -> In EvDecode (calls r)).
Proof.
  intros Hrec r. subst r. split; [|split].
  - intros Hs. rewrite (Do_status_fails _ _ _ _ _ _ _ _ _ Hrec Hs).
    split; [reflexivity|]. split; [no_decoder|].
    split; [no_decoder|reflexivity].
  - unfold is_2xx. intros H Hs. rewrite Hs in H. discriminate.
  - intros Hs. destruct (json_Decode (RespBody resp)) as [out|e] eqn:He.
    + assert (Henv : Envelope c ctx query variables w req resp n out)
        by (repeat split; assumption || apply Hrec).
      destruct (out_Data out) as [data|] eqn:Hd.
      * rewrite (Do_with_data _ _ _ _ _ _ _ _ _ _ _ Henv Hd). cbn. tauto.
      * rewrite (Do_without_data _ _ _ _ _ _ _ _ _ _ Henv Hd). cbn. tauto.
    + rewrite (Do_envelope_fails _ _ _ _ _ _ _ _ _ _ Hrec Hs He). cbn. tauto.
Qed.

(** C5.  When the body of an answer with status 200 cannot be decoded
    into the envelope, [Do] returns the error of that decoding, and the
    destination is not written, no decoder of the payload being called.
    When the body decodes into an envelope with a payload, the payload is
    handed to the decoder, whatever it holds: a payload that does not
    decode fails there, with the error of the payload decoder. *)
Theorem Do_envelope_decode_error c ctx query merge variables w req resp n :
  Receives c ctx query variables w req resp n ->
  StatusCode resp = StatusOK ->
  let r := Do c ctx query merge variables w in
  (forall e, json_Decode (RespBody resp) = inr e ->
     returned r = Some (External e)
     /\ dest (after r) = dest w
     /\ Forall (fun ev => is_payload_decode ev = false) (calls r))
  /\ (forall out data,
        json_Decode (RespBody resp) = inl out ->
        out_Data out = Some data ->
        In EvDecode (calls r)
        /\ In (decode_event merge data) (calls r)
        /\ forall e, snd (payload_decoder merge data (dest w)) = Some e ->
                     returned r = Some (External e)).
Proof.
  intros Hrec Hs r. subst r. split.
  - intros e He. rewrite (Do_envelope_fails _ _ _ _ _ _ _ _ _ _ Hrec Hs He).
    split; [reflexivity|]. split; [reflexivity|no_decoder].
  - intros out data He Hd.
    assert (Henv : Envelope c ctx query variables w req resp n out)
      by (repeat split; assumption || apply Hrec).
    rewrite (Do_with_data _ _ _ _ _ _ _ _ _ _ _ Henv Hd). cbn.
    split; [tauto|]. split; [tauto|].
    intros e ->. reflexivity.
Qed.

(** C6.  Every request that [Do], [Query] or [Mutate] hands to the
    transport has the method POST, the header Content-Type set to
    application/json, and as body the text of a JSON object with the
    document under "query" and, unless the bindings are empty, the
    marshalled bindings under "variables". *)
Theorem Do_request_on_wire c ctx variables w req :
  (forall query merge,
      In (EvRoundTrip req) (calls (Do c ctx query merge variables w)) ->
      wire_request query variables req)
  /\ (In (EvRoundTrip req) (calls (Query c ctx variables w)) ->
      wire_request (constructQuery (dest w) variables) variables req)
  /\ (In (EvRoundTrip req) (calls (Mutate c ctx variables w)) ->
      wire_request (constructMutation (dest w) variables) variables req).
Proof.
  assert (HDo : forall query merge,
             In (EvRoundTrip req) (calls (Do c ctx query merge variables w)) ->
             wire_request query variables req).
  { intros query merge.
    destruct (Do_paths c ctx query merge variables w)
      as [(e & He & ->)|[(buf & e & _ & He & ->)|[(req' & e & n & Hr & _ & ->)
         |[(req' & resp & n & [Hr _] & _ & ->)
         |[(req' & resp & n & e & [Hr _] & _ & _ & ->)
         |[(req' & resp & n & out & ([Hr _] & _) & _ & ->)
         |(req' & resp & n & out & data & ([Hr _] & _) & _ & ->)]]]]]];
      intros Hin; try (destruct merge); absurd_In Hin;
      injection Hin as <-; now apply request_of_wire with c ctx. }
  split; [exact HDo|]. split; apply HDo.
Qed.

(** C7.  [Do], [Query] and [Mutate] call the transport at most once, and
    a failure of any step (encoding, request construction, transport,
    status check, envelope decoding, payload decoding) is what [Do]
    returns, no call other than the deferred closing of the body following
    the failed one. *)
Theorem Do_no_retry c ctx query merge variables w :
  let r := Do c ctx query merge variables w in
  (round_trips (calls r) <= 1)%nat
  /\ (round_trips (calls (Query c ctx variables w)) <= 1)%nat
  /\ (round_trips (calls (Mutate c ctx variables w)) <= 1)%nat
  /\ (forall e, Encode (mkIn query variables) = inr e ->
        returned r = Some e /\ calls r = [EvEncode])
  /\ (forall buf e,
        Encode (mkIn query variables) = inl buf ->
        NewRequestWithContext ctx MethodPost (url c) buf = inr e ->
        returned r = Some e /\ calls r = [EvEncode; EvNewRequest])
  /\ (forall req e n,
        request_of c ctx query variables = Some req ->
        httpClient c (net w) req = (inr e, n) ->
        returned r = Some (External e)
        /\ calls r = [EvEncode; EvNewRequest; EvRoundTrip req])
  /\ (forall req resp n,
        Receives c ctx query variables w req resp n ->
        StatusCode resp <> StatusOK ->
        returned r = Some (status_error (Status resp) (RespBody resp))
        /\ calls r = [EvEncode; EvNewRequest; EvRoundTrip req; EvReadAll;
                      EvClose])
  /\ (forall req resp n e,
        Receives c ctx query variables w req resp n ->
        StatusCode resp = StatusOK ->
        json_Decode (RespBody resp) = inr e ->
        returned r = Some (External e)
        /\ calls r = [EvEncode; EvNewRequest; EvRoundTrip req; EvDecode;
                      EvClose])
  /\ (forall req resp n out data e,
        Envelope c ctx query variables w req resp n out ->
        out_Data out = Some data ->
        snd (payload_decoder merge data (dest w)) = Some e ->
        returned r = Some (External e)
        /\ calls r = [EvEncode; EvNewRequest; EvRoundTrip req; EvDecode;
                      decode_event merge data; EvClose]).
Proof.
  assert (Hone : forall q m,
             (round_trips (calls (Do c ctx q m variables w)) <= 1)%nat).
  { intros q m.
    destruct (Do_paths c ctx q m variables w)
      as [(e & _ & ->)|[(buf & e & _ & _ & ->)|[(req & e & n & _ & _ & ->)
         |[(req & resp & n & _ & _ & ->)|[(req & resp & n & e & _ & _ & _ & ->)
         |[(req & resp & n & out & _ & _ & ->)
         |(req & resp & n & out & data & _ & _ & ->)]]]]]];
      try (destruct m); unfold round_trips; cbn; lia. }
  intros r. subst r.
  split; [apply Hone|]. split; [apply Hone|]. split; [apply Hone|].
  split; [|split; [|split; [|split; [|split]]]].
  - intros e He. rewrite (Do_encode_fails _ _ _ _ _ _ _ He). now split.
  - intros buf e Hb He.
    rewrite (Do_request_fails _ _ _ _ _ _ _ _ Hb He). now split.
  - intros req e n Hr He.
    rewrite (Do_transport_fails _ _ _ _ _ _ _ _ _ Hr He). now split.
  - intros req resp n Hrec Hs.
    rewrite (Do_status_fails _ _ _ _ _ _ _ _ _ Hrec Hs). now split.
  - intros req resp n e Hrec Hs He.
    rewrite (Do_envelope_fails _ _ _ _ _ _ _ _ _ _ Hrec Hs He). now split.
  - intros req resp n out data e Henv Hd He.
    rewrite (Do_with_data _ _ _ _ _ _ _ _ _ _ _ Henv Hd), He. now split.
Qed.

(** C8.  [Query] and [Mutate] are calls of [Do] with the flag [merge]
    false, and never call the merge decoder; [Do] calls the merge decoder
    only when the flag is true, and then in place of the replace decoder. *)
Theorem Query_Mutate_replace_mode c ctx variables w :
  Query c ctx variables w
  = Do c ctx (constructQuery (dest w) variables) false variables w
  /\ Mutate c ctx variables w
     = Do c ctx (constructMutation (dest w) variables) false variables w
  /\ Forall (fun ev => is_merge_decode ev = false)
            (calls (Query c ctx variables w))
  /\ Forall (fun ev => is_merge_decode ev = false)
            (calls (Mutate c ctx variables w))
  /\ (forall query merge,
        let r := Do c ctx query merge variables w in
        Forall (fun ev => is_merge_decode ev = true -> merge = true) (calls r)
        /\ Forall (fun ev => is_replace_decode ev = true -> merge = false)
                  (calls r))
  /\ (forall query req resp n out data,
        Envelope c ctx query variables w req resp n out ->
        out_Data out = Some data ->
        (let r := Do c ctx query true variables w in
         In (EvMergeUnmarshal data) (calls r)
         /\ dest (after r) = fst (MergeUnmarshalGraphQL data (dest w)))
        /\ (let r := Do c ctx query false variables w in
            In (EvUnmarshal data) (calls r)
            /\ dest (after r) = fst (UnmarshalGraphQL data (dest w)))).
Proof.
  assert (Hflag : forall query merge,
             let r := Do c ctx query merge variables w in
             Forall (fun ev => is_merge_decode ev = true -> merge = true)
                    (calls r)
             /\ Forall (fun ev => is_replace_decode ev = true -> merge = false)
                       (calls r)).
  { intros query merge.
    destruct (Do_paths c ctx query merge variables w)
      as [(e & _ & ->)|[(buf & e & _ & _ & ->)|[(req & e & n & _ & _ & ->)
         |[(req & resp & n & _ & _ & ->)|[(req & resp & n & e & _ & _ & _ & ->)
         |[(req & resp & n & out & _ & _ & ->)
         |(req & resp & n & out & data & _ & _ & ->)]]]]]];
      cbn; try (destruct merge); cbn;
      split; repeat constructor; try discriminate; reflexivity. }
  assert (Hreplace : forall query,
             Forall (fun ev => is_merge_decode ev = false)
                    (calls (Do c ctx query false variables w))).
  { intros query. destruct (Hflag query false) as [Hm _].
    eapply Forall_impl; [exact Hm|]. cbn. intros ev H.
    destruct (is_merge_decode ev); [|reflexivity].
    specialize (H eq_refl). discriminate. }
  split; [reflexivity|]. split; [reflexivity|].
  split; [apply Hreplace|]. split; [apply Hreplace|].
  split; [exact Hflag|].
  intros query req resp n out data Henv Hd. split; intros r; subst r;
    rewrite (Do_with_data _ _ _ _ _ _ _ _ _ _ _ Henv Hd); cbn; tauto.
Qed.

(** C9.  When the payload is present and its decoding fails, [Do] returns
    the error of the decoder, which is not the aggregate, whatever the
    errors list holds; and when [Do] returns the aggregate, a decoding of
    the payload that it performed did not fail. *)
Theorem Do_decode_error_hides_errors c ctx query merge variables w :
  let r := Do c ctx query merge variables w in
  (forall req resp n out data e,
      Envelope c ctx query variables w req resp n out ->
      out_Data out = Some data ->
      out_Errors out <> [] ->
      snd (payload_decoder merge data (dest w)) = Some e ->
      returned r = Some (External e)
      /\ as_errors (External e) = None
      /\ returned r <> Some (ErrorsValue (out_Errors out)))
  /\ (forall es data,
        returned r = Some (ErrorsValue es) ->
        In (decode_event merge data) (calls r) ->
        snd (payload_decoder merge data (dest w)) = None).
Proof.
  intros r. subst r. split.
  - intros req resp n out data e Henv Hd Hes He.
    rewrite (Do_with_data _ _ _ _ _ _ _ _ _ _ _ Henv Hd), He.
    unfold returned. cbn. repeat split. discriminate.
  - intros es data.
    destruct (Do_paths c ctx query merge variables w)
      as [(e & _ & ->)|[(buf & e & _ & _ & ->)|[(req & e & n & _ & _ & ->)
         |[(req & resp & n & _ & _ & ->)|[(req & resp & n & e & _ & _ & _ & ->)
         |[(req & resp & n & out & _ & _ & ->)
         |(req & resp & n & out & data' & _ & _ & ->)]]]]]];
      intros Hret Hin.
    1-6: destruct merge; absurd_In Hin.
    assert (data = data') as <-.
    { cbn in Hin. destruct Hin as [H|[H|[H|[H|[H|[H|[]]]]]]];
        try (destruct merge; discriminate H).
      symmetry. now apply decode_event_inj with merge. }
    unfold returned in Hret. cbn in Hret.
    destruct (snd (payload_decoder merge data (dest w))); [discriminate|].
    reflexivity.
Qed.

(** C10.  When the envelope has no data payload ([Data] is nil, the key
    being absent or null), [Do] calls no decoder of the payload and leaves
    the destination as it was; it returns the aggregate when the errors
    list is not empty, and nil when it is. *)
Theorem Do_without_payload c ctx query merge variables w req resp n out :
  Envelope c ctx query variables w req resp n out ->
  out_Data out = None ->
  let r := Do c ctx query merge variables w in
  Forall (fun ev => is_payload_decode ev = false) (calls r)
  /\ dest (after r) = dest w
  /\ (out_Errors out <> [] ->
      returned r = Some (ErrorsValue (out_Errors out)))
  /\ (out_Errors out = [] -> returned r = None).
Proof.
  intros Henv Hd r. subst r.
  rewrite (Do_without_data _ _ _ _ _ _ _ _ _ _ Henv Hd).
  split; [no_decoder|]. split; [reflexivity|]. unfold returned. cbn. split.
  - intros Hes. now rewrite (verdict_nonempty _ Hes).
  - intros ->. reflexivity.
Qed.

(** * Further properties of the client *)

(** ** When a request is built *)

Lemma marshal_entries_ok_iff (kvs : list (string * Value)) :
  (exists vars, marshal_entries kvs = inl vars)
  <-> forall k v, In (k, v) kvs -> exists j, json_Marshal v = inl j.
Proof.
  induction kvs as [|[k0 v0] rest IH]; cbn.
  - split; [intros _ k v []|intros _; eauto].
  - split.
    + intros [vars H] k v [[= <- <-]|Hin].
      * destruct (json_Marshal v0) as [j|]; [eauto|discriminate].
      * destruct (json_Marshal v0); [|discriminate].
        destruct (marshal_entries rest) as [js|] eqn:Hr; [|discriminate].
        apply (proj1 IH (ex_intro _ js eq_refl) k v Hin).
    + intros H. destruct (H k0 v0 (or_introl eq_refl)) as [j ->].
      destruct (proj2 IH) as [js ->]; eauto.
Qed.

Lemma marshal_entries_error (kvs : list (string * Value)) (e : ExtErr) :
  marshal_entries kvs = inr e ->
  exists k v, In (k, v) kvs /\ json_Marshal v = inr e.
Proof.
  induction kvs as [|[k0 v0] rest IH]; cbn; [discriminate|].
  destruct (json_Marshal v0) as [j|e0] eqn:Hj.
  - destruct (marshal_entries rest) as [js|e1]; [discriminate|].
    intros [= <-]. destruct (IH eq_refl) as (k & v & Hin & Hv).
    exists k, v. split; [now right|assumption].
  - intros [= <-]. exists k0, v0. split; [now left|assumption].
Qed.

Lemma Encode_ok_iff query variables :
  (exists buf, Encode (mkIn query variables) = inl buf)
  <-> forall k v, variables !! k = Some v -> exists j, json_Marshal v = inl j.
Proof.
  unfold Encode, marshal_in. cbn. case_bool_decide as Hsize.
  - apply map_size_empty_iff in Hsize. subst variables. split; [|eauto].
    intros _ k v H. rewrite lookup_empty in H. discriminate.
  - destruct (marshal_entries (sorted_entries variables)) as [vars|e] eqn:Hm.
    + split; [|eauto]. intros _ k v Hkv.
      apply (proj1 (marshal_entries_ok_iff _) (ex_intro _ vars Hm) k v).
      now apply sorted_entries_In.
    + split; [intros [buf [=]]|]. intros H.
      destruct (proj2 (marshal_entries_ok_iff (sorted_entries variables)))
        as [vars Hv]; [|congruence].
      intros k v Hin. apply (H k v). now apply sorted_entries_In.
Qed.

Lemma Encode_error_origin query variables (e : error) :
  Encode (mkIn query variables) = inr e ->
  exists k v x, variables !! k = Some v /\ json_Marshal v = inr x
                /\ e = External x.
Proof.
  unfold Encode, marshal_in. cbn. case_bool_decide as Hsize; [discriminate|].
  destruct (marshal_entries (sorted_entries variables)) as [vars|x] eqn:Hm;
    [discriminate|].
  intros [= <-]. destruct (marshal_entries_error _ _ Hm) as (k & v & Hin & Hv).
  exists k, v, x. split; [now apply sorted_entries_In|]. now split.
Qed.

Lemma NewRequest_ok_iff ctx (u : string) (buf : bytes) :
  (exists req0, NewRequestWithContext ctx MethodPost u buf = inl req0)
  <-> ctx <> None /\ exists parsed, url_Parse u = inl parsed.
Proof.
  unfold NewRequestWithContext.
  change (String.eqb MethodPost "") with false. cbv iota.
  change (validMethod MethodPost) with true. cbn.
  destruct ctx as [d|].
  - destruct (url_Parse u) as [parsed|e].
    + split; [intros _; split; [discriminate|eauto]|eauto].
    + split; [intros [req0 [=]]|intros [_ [parsed [=]]]].
  - split; [intros [req0 [=]]|intros [H _]; contradiction].
Qed.

Lemma NewRequest_target ctx (u : string) (buf : bytes) req0 :
  NewRequestWithContext ctx MethodPost u buf = inl req0 ->
  url_Parse u = inl (ReqURL req0) /\ ctx = Some (Ctx req0).
Proof.
  unfold NewRequestWithContext.
  change (String.eqb MethodPost "") with false. cbv iota.
  change (validMethod MethodPost) with true. cbn.
  destruct ctx as [d|]; [|discriminate].
  destruct (url_Parse u) as [parsed|]; [|discriminate].
  intros [= <-]. split; reflexivity.
Qed.

Lemma NewRequest_error_origin ctx (u : string) (buf : bytes) (e : error) :
  NewRequestWithContext ctx MethodPost u buf = inr e ->
  (ctx = None /\ e = errorString "net/http: nil Context")
  \/ (exists x, url_Parse u = inr x /\ e = External x).
Proof.
  unfold NewRequestWithContext.
  change (String.eqb MethodPost "") with false. cbv iota.
  change (validMethod MethodPost) with true. cbn.
  destruct ctx as [d|]; [|intros [= <-]; left; now split].
  destruct (url_Parse u) as [parsed|x]; [discriminate|].
  intros [= <-]. right. exists x. now split.
Qed.

(** X2.  [Do] gets as far as the transport exactly when every bound
    variable can be marshalled, the context is not nil and the address of
    the client parses. *)
Theorem request_built_iff c ctx query variables :
  (exists req, request_of c ctx query variables = Some req)
  <-> (forall k v, variables !! k = Some v ->
                   exists j, json_Marshal v = inl j)
      /\ ctx <> None
      /\ exists parsed, url_Parse (url c) = inl parsed.
Proof.
  unfold request_of. split.
  - intros [req H].
    destruct (Encode (mkIn query variables)) as [buf|] eqn:He; [|discriminate].
    destruct (NewRequestWithContext ctx MethodPost (url c) buf) as [req0|]
      eqn:Hn; [|discriminate].
    split.
    + apply (proj1 (Encode_ok_iff query variables)). eauto.
    + apply (proj1 (NewRequest_ok_iff ctx (url c) buf)). eauto.
  - intros (Hv & Hc & Hu).
    destruct (proj2 (Encode_ok_iff query variables) Hv) as [buf ->].
    destruct (proj2 (NewRequest_ok_iff ctx (url c) buf) (conj Hc Hu))
      as [req0 ->]. eauto.
Qed.

(** X3.  When no request is built, [Do] returns an error that is not an
    errors list, without any exchange with the network and leaving the
    destination and the network as they were; the error is that of a bound
    variable that cannot be marshalled, or the nil context, or the address
    that does not parse. *)
Theorem Do_without_request c ctx query merge variables w :
  request_of c ctx query variables = None ->
  let r := Do c ctx query merge variables w in
  after r = w
  /\ round_trips (calls r) = 0%nat
  /\ count_calls is_payload_decode (calls r) = 0%nat
  /\ exists e, returned r = Some e
               /\ as_errors e = None
               /\ ((exists k v x, variables !! k = Some v
                                  /\ json_Marshal v = inr x /\ e = External x)
                   \/ (ctx = None /\ e = errorString "net/http: nil Context")
                   \/ (exists x, url_Parse (url c) = inr x /\ e = External x)).
Proof.
  intros Hreq r. subst r. unfold request_of in Hreq.
  destruct (Encode (mkIn query variables)) as [buf|e] eqn:He.
  - destruct (NewRequestWithContext ctx MethodPost (url c) buf) as [req0|e]
      eqn:Hn; [discriminate|].
    rewrite (Do_request_fails _ _ _ _ _ _ _ _ He Hn).
    repeat split. exists e. split; [reflexivity|].
    split; [now apply NewRequest_error in Hn|].
    right. now apply NewRequest_error_origin with buf.
  - rewrite (Do_encode_fails _ _ _ _ _ _ _ He).
    repeat split. exists e. split; [reflexivity|].
    split; [now apply Encode_error in He|].
    left. now apply Encode_error_origin with query.
Qed.

(** ** Once the transport has answered *)

(** The four ways [Do] goes on after an answer of the transport. *)
Lemma Do_after_response c ctx query merge variables w req resp n :
  Receives c ctx query variables w req resp n ->
  let r := Do c ctx query merge variables w in
  (StatusCode resp <> StatusOK
   /\ r = mkRun (inr (status_error (Status resp) (RespBody resp)))
                (mkWorld (dest w) n)
                [EvEncode; EvNewRequest; EvRoundTrip req; EvReadAll; EvClose])
  \/ (exists e,
        StatusCode resp = StatusOK
        /\ json_Decode (RespBody resp) = inr e
        /\ r = mkRun (inr (External e)) (mkWorld (dest w) n)
                     [EvEncode; EvNewRequest; EvRoundTrip req; EvDecode;
                      EvClose])
  \/ (exists out,
        Envelope c ctx query variables w req resp n out
        /\ out_Data out = None
        /\ r = mkRun (verdict (out_Errors out)) (mkWorld (dest w) n)
                     [EvEncode; EvNewRequest; EvRoundTrip req; EvDecode;
                      EvClose])
  \/ (exists out data,
        Envelope c ctx query variables w req resp n out
        /\ out_Data out = Some data
        /\ r = mkRun (match snd (payload_decoder merge data (dest w)) with
                      | Some e => inr (External e)
                      | None => verdict (out_Errors out)
                      end)
                     (mkWorld (fst (payload_decoder merge data (dest w))) n)
                     [EvEncode; EvNewRequest; EvRoundTrip req; EvDecode;
                      decode_event merge data; EvClose]).
Proof.
  intros Hrec r. subst r.
  destruct (Z.eq_dec (StatusCode resp) StatusOK) as [Hs|Hs].
  2: { left. split; [assumption|]. eapply Do_status_fails; eassumption. }
  right.
  destruct (json_Decode (RespBody resp)) as [out|e] eqn:He.
  2: { left. exists e. repeat split; try assumption.
       eapply Do_envelope_fails; eassumption. }
  right.
  assert (Henv : Envelope c ctx query variables w req resp n out)
    by (repeat split; assumption || apply Hrec).
  destruct (out_Data out) as [data|] eqn:Hd.
  - right. exists out, data. repeat split; try assumption || apply Hrec.
    eapply Do_with_data; eassumption.
  - left. exists out. repeat split; try assumption || apply Hrec.
    eapply Do_without_data; eassumption.
Qed.

Lemma verdict_nil (es : errors) : verdict es = inl tt -> es = [].
Proof. destruct es; [reflexivity|discriminate]. Qed.

(** X1.  A client made by [NewClient] sends its request to the address it
    was made with, under the context of the caller, with Content-Type as
    its only header, and through the transport it was given, or through
    the default one when it was given nil. *)
Theorem NewClient_request_target (D : HTTPClient) (u : string)
    (h : option HTTPClient) ctx query merge variables w req :
  let c := NewClient D u h in
  let r := Do c ctx query merge variables w in
  In (EvRoundTrip req) (calls r) ->
  url_Parse u = inl (ReqURL req)
  /\ ctx = Some (Ctx req)
  /\ Header req = {["Content-Type" := ["application/json"]]}
  /\ net (after r)
     = snd (match h with Some t => t | None => D end (net w) req).
Proof.
  intros c r Hin.
  assert (Hu : url c = u) by (subst c; destruct h; reflexivity).
  assert (Ht : httpClient c = match h with Some t => t | None => D end)
    by (subst c; destruct h; reflexivity).
  assert (Hsent : request_of c ctx query variables = Some req
                  /\ net (after r) = snd (httpClient c (net w) req)).
  { subst r.
    destruct (Do_paths c ctx query merge variables w)
      as [(e & _ & Hr)|[(buf & e & _ & _ & Hr)|[(req' & e & n & Hq & Hn & Hr)
         |[(req' & resp & n & [Hq Hn] & _ & Hr)
         |[(req' & resp & n & e & [Hq Hn] & _ & _ & Hr)
         |[(req' & resp & n & out & ([Hq Hn] & _) & _ & Hr)
         |(req' & resp & n & out & data & ([Hq Hn] & _) & _ & Hr)]]]]]];
      rewrite Hr in Hin |- *; try (destruct merge); absurd_In Hin;
      injection Hin as <-; rewrite Hn; now split. }
  destruct Hsent as [(buf & req0 & _ & Hnew & ->)%request_of_Some Hnet].
  destruct (NewRequest_target _ _ _ _ Hnew) as [Hurl Hctx].
  destruct (NewRequest_fields _ _ _ _ Hnew) as (_ & Hh & _).
  rewrite Hu in Hurl. rewrite <- Ht. cbn.
  repeat split; try assumption.
  change (CanonicalMIMEHeaderKey "Content-Type") with "Content-Type".
  rewrite Hh. apply insert_empty.
Qed.

(** X4.  When a request is built, [Do] hands it to the transport exactly
    once, and the network is left as that one exchange left it. *)
Theorem Do_one_exchange c ctx query merge variables w req :
  request_of c ctx query variables = Some req ->
  let r := Do c ctx query merge variables w in
  List.filter is_round_trip (calls r) = [EvRoundTrip req]
  /\ net (after r) = snd (httpClient c (net w) req).
Proof.
  intros Hreq r. subst r.
  destruct (httpClient c (net w) req) as [[resp|e] n] eqn:Hn.
  - assert (Hrec : Receives c ctx query variables w req resp n)
      by (split; assumption).
    destruct (Do_after_response c ctx query merge variables w req resp n Hrec)
      as [[_ ->]|[(e & _ & _ & ->)|[(out & _ & _ & ->)
         |(out & data & _ & _ & ->)]]];
      try (destruct merge); split; reflexivity.
  - rewrite (Do_transport_fails _ _ _ _ _ _ _ _ _ Hreq Hn). split; reflexivity.
Qed.

(** X5.  When the transport has answered, the body of the answer is read
    exactly once, by [io.ReadAll] for a status other than 200 and by the
    JSON decoder for the status 200, and it is closed exactly once, as the
    last call of [Do], whatever [Do] returns. *)
Theorem Do_reads_body_once_and_closes c ctx query merge variables w
    req resp n :
  Receives c ctx query variables w req resp n ->
  let r := Do c ctx query merge variables w in
  count_calls is_body_read (calls r) = 1%nat
  /\ count_calls is_close (calls r) = 1%nat
  /\ last (calls r) = Some EvClose
  /\ (StatusCode resp = StatusOK -> In EvDecode (calls r))
  /\ (StatusCode resp <> StatusOK -> In EvReadAll (calls r)).
Proof.
  intros Hrec r. subst r.
  destruct (Do_after_response c ctx query merge variables w req resp n Hrec)
    as [[Hs ->]|[(e & Hs & _ & ->)|[(out & (_ & Hs & _) & _ & ->)
       |(out & data & (_ & Hs & _) & _ & ->)]]];
    try (destruct merge); unfold count_calls; cbn;
    repeat split; try reflexivity; try tauto; try (intros; contradiction).
Qed.

(** X6.  When the transport has not answered (no request was built, or the
    exchange failed), [Do] reads no body and closes none. *)
Theorem Do_no_body_without_response c ctx query merge variables w :
  (forall req resp n, ~ Receives c ctx query variables w req resp n) ->
  let r := Do c ctx query merge variables w in
  count_calls is_body_read (calls r) = 0%nat
  /\ count_calls is_close (calls r) = 0%nat
  /\ dest (after r) = dest w
  /\ exists e, returned r = Some e.
Proof.
  intros Hno r. subst r.
  destruct (Do_paths c ctx query merge variables w)
    as [(e & _ & ->)|[(buf & e & _ & _ & ->)|[(req & e & n & _ & _ & ->)
       |[(req & resp & n & Hr & _)|[(req & resp & n & e & Hr & _)
       |[(req & resp & n & out & (Hr & _) & _)
       |(req & resp & n & out & data & (Hr & _) & _)]]]]]];
    try (now destruct (Hno _ _ _ Hr));
    unfold count_calls, returned; cbn; repeat split; eauto.
Qed.

(** ** What the value returned tells *)

(** X7.  [Do] returns nil exactly when the transport answered with the
    status 200, the body decoded into an envelope with an empty errors
    list, and the payload, if there is one, decoded without error. *)
Theorem Do_returns_nil_iff c ctx query merge variables w :
  returned (Do c ctx query merge variables w) = None
  <-> exists req resp n out,
        Envelope c ctx query variables w req resp n out
        /\ out_Errors out = []
        /\ forall data, out_Data out = Some data ->
                        snd (payload_decoder merge data (dest w)) = None.
Proof.
  split.
  - destruct (Do_paths c ctx query merge variables w)
      as [(e & _ & ->)|[(buf & e & _ & _ & ->)|[(req & e & n & _ & _ & ->)
         |[(req & resp & n & _ & _ & ->)|[(req & resp & n & e & _ & _ & _ & ->)
         |[(req & resp & n & out & Henv & Hd & ->)
         |(req & resp & n & out & data & Henv & Hd & ->)]]]]]];
      unfold returned; cbn; try discriminate.
    + destruct (verdict (out_Errors out)) as [[]|] eqn:Hv; [|discriminate].
      intros _. exists req, resp, n, out. split; [assumption|].
      split; [now apply verdict_nil|]. intros data. rewrite Hd. discriminate.
    + destruct (snd (payload_decoder merge data (dest w))) eqn:Hp;
        [discriminate|].
      destruct (verdict (out_Errors out)) as [[]|] eqn:Hv; [|discriminate].
      intros _. exists req, resp, n, out. split; [assumption|].
      split; [now apply verdict_nil|]. intros data'. rewrite Hd.
      intros [= <-]. assumption.
  - intros (req & resp & n & out & Henv & Hes & Hok).
    destruct (out_Data out) as [data|] eqn:Hd.
    + rewrite (Do_with_data _ _ _ _ _ _ _ _ _ _ _ Henv Hd), (Hok data eq_refl).
      rewrite Hes. reflexivity.
    + rewrite (Do_without_data _ _ _ _ _ _ _ _ _ _ Henv Hd), Hes. reflexivity.
Qed.

(** X8.  [Do] returns an errors list exactly when the transport answered
    with the status 200, the body decoded into an envelope whose errors
    list is that list and is not empty, and the payload, if there is one,
    decoded without error. *)
Theorem Do_returns_errors_iff c ctx query merge variables w (es : errors) :
  returned (Do c ctx query merge variables w) = Some (ErrorsValue es)
  <-> exists req resp n out,
        Envelope c ctx query variables w req resp n out
        /\ out_Errors out = es
        /\ es <> []
        /\ forall data, out_Data out = Some data ->
                        snd (payload_decoder merge data (dest w)) = None.
Proof.
  split.
  - destruct (Do_paths c ctx query merge variables w)
      as [(e & He & ->)|[(buf & e & _ & He & ->)|[(req & e & n & _ & _ & ->)
         |[(req & resp & n & _ & _ & ->)|[(req & resp & n & e & _ & _ & _ & ->)
         |[(req & resp & n & out & Henv & Hd & ->)
         |(req & resp & n & out & data & Henv & Hd & ->)]]]]]];
      unfold returned; cbn; try discriminate.
    + intros [= ->]. apply Encode_error in He. discriminate.
    + intros [= ->]. apply NewRequest_error in He. discriminate.
    + destruct (verdict (out_Errors out)) as [|e] eqn:Hv; [discriminate|].
      intros [= ->]. apply verdict_aggregate in Hv as [-> Hne].
      exists req, resp, n, out. split; [assumption|].
      split; [reflexivity|]. split; [assumption|].
      intros data. rewrite Hd. discriminate.
    + destruct (snd (payload_decoder merge data (dest w))) eqn:Hp;
        [discriminate|].
      destruct (verdict (out_Errors out)) as [|e] eqn:Hv; [discriminate|].
      intros [= ->]. apply verdict_aggregate in Hv as [-> Hne].
      exists req, resp, n, out. split; [assumption|].
      split; [reflexivity|]. split; [assumption|].
      intros data'. rewrite Hd. intros [= <-]. assumption.
  - intros (req & resp & n & out & Henv & <- & Hne & Hok).
    destruct (out_Data out) as [data|] eqn:Hd.
    + rewrite (Do_with_data _ _ _ _ _ _ _ _ _ _ _ Henv Hd), (Hok data eq_refl).
      unfold returned. cbn. now rewrite (verdict_nonempty _ Hne).
    + rewrite (Do_without_data _ _ _ _ _ _ _ _ _ _ Henv Hd).
      unfold returned. cbn. now rewrite (verdict_nonempty _ Hne).
Qed.


(** ** The destination *)

(** X10.  [Do] calls a decoder of the payload at most once; without such
    a call the destination is left as it was, and with one the call is
    that of the decoder the flag selects, on the payload of the envelope,
    and the destination is what that decoder made of it. *)
Theorem Do_writes_destination_once c ctx query merge variables w :
  let r := Do c ctx query merge variables w in
  (count_calls is_payload_decode (calls r) <= 1)%nat
  /\ (count_calls is_payload_decode (calls r) = 0%nat ->
      dest (after r) = dest w)
  /\ (forall ev, In ev (calls r) -> is_payload_decode ev = true ->
        exists req resp n out data,
          Envelope c ctx query variables w req resp n out
          /\ out_Data out = Some data
          /\ ev = decode_event merge data
          /\ dest (after r) = fst (payload_decoder merge data (dest w))).
Proof.
  intros r. subst r.
  destruct (Do_paths c ctx query merge variables w)
    as [(e & _ & ->)|[(buf & e & _ & _ & ->)|[(req & e & n & _ & _ & ->)
       |[(req & resp & n & _ & _ & ->)|[(req & resp & n & e & _ & _ & _ & ->)
       |[(req & resp & n & out & _ & _ & ->)
       |(req & resp & n & out & data & Henv & Hd & ->)]]]]]].
  1-6: unfold count_calls; cbn; split; [lia|]; split; [reflexivity|];
       intros ev Hin Hev; absurd_In Hin; subst ev; discriminate Hev.
  split; [|split].
  - unfold count_calls. destruct merge; cbn; lia.
  - unfold count_calls. destruct merge; cbn; discriminate.
  - intros ev Hin Hev. exists req, resp, n, out, data.
    repeat split; try assumption || apply Henv.
    cbn in Hin.
    destruct Hin as [<-|[<-|[<-|[<-|[<-|[<-|[]]]]]]];
      try discriminate Hev; reflexivity.
Qed.

(** X11.  The flag [merge] matters to the payload only: a run that calls
    no decoder of the payload is the same run with the other value of the
    flag. *)
Theorem Do_merge_irrelevant_without_payload c ctx query merge variables w :
  count_calls is_payload_decode (calls (Do c ctx query merge variables w))
  = 0%nat ->
  Do c ctx query (negb merge) variables w = Do c ctx query merge variables w.
Proof.
  destruct (Do_paths c ctx query merge variables w)
    as [(e & He & ->)|[(buf & e & Hb & He & ->)|[(req & e & n & Hq & Hn & ->)
       |[(req & resp & n & Hrec & Hs & ->)
       |[(req & resp & n & e & Hrec & Hs & He & ->)
       |[(req & resp & n & out & Henv & Hd & ->)
       |(req & resp & n & out & data & Henv & Hd & ->)]]]]]]; intros Hcount.
  - now apply Do_encode_fails.
  - now apply Do_request_fails with buf.
  - now apply Do_transport_fails.
  - eapply Do_status_fails; eassumption.
  - eapply Do_envelope_fails; eassumption.
  - eapply Do_without_data; eassumption.
  - unfold count_calls in Hcount. destruct merge; discriminate Hcount.
Qed.

(** ** The order of the early errors *)

(** X12.  A bound variable that cannot be marshalled is reported before
    anything else is looked at, and the nil context before the address of
    the client: with such a variable [Do] returns a marshalling error after
    the encoding alone, whatever the context and the address; with
    variables that marshal and a nil context it returns the error of the
    nil context, whatever the address. *)
Theorem Do_early_error_order c ctx query merge variables w :
  let r := Do c ctx query merge variables w in
  ((exists k v x, variables !! k = Some v /\ json_Marshal v = inr x) ->
   calls r = [EvEncode]
   /\ exists k v x, variables !! k = Some v /\ json_Marshal v = inr x
                    /\ returned r = Some (External x))
  /\ ((forall k v, variables !! k = Some v ->
                   exists j, json_Marshal v = inl j) ->
      ctx = None ->
      calls r = [EvEncode; EvNewRequest]
      /\ returned r = Some (errorString "net/http: nil Context")).
Proof.
  intros r. subst r. split.
  - intros (k & v & x & Hk & Hx).
    destruct (Encode (mkIn query variables)) as [buf|e] eqn:He.
    + destruct (proj1 (Encode_ok_iff query variables) (ex_intro _ buf He) k v Hk)
        as [j Hj]. congruence.
    + rewrite (Do_encode_fails _ _ _ _ _ _ _ He). split; [reflexivity|].
      destruct (Encode_error_origin _ _ _ He) as (k' & v' & x' & Hk' & Hx' & ->).
      exists k', v', x'. repeat split; assumption.
  - intros Hv ->.
    destruct (proj2 (Encode_ok_iff query variables) Hv) as [buf He].
    assert (Hn : NewRequestWithContext None MethodPost (url c) buf
                 = inr (errorString "net/http: nil Context")) by reflexivity.
    rewrite (Do_request_fails _ _ _ _ _ _ _ _ He Hn). split; reflexivity.
Qed.

End Properties.

(** * The client at work on the reference platform *)

Import Reference.

(** Concrete runs are settled by conversion. *)
Ltac evaluate := first [reflexivity | discriminate].

(** The scenario of the specification: the answer is decoded into the
    shape. *)
Example Query_octocat :
  let r := Query (client (OK good_body)) (Some tt) ∅ start in
  returned r = None
  /\ dest (after r) = mkShape (mkViewer "octocat" 1)
  /\ calls r = [EvEncode; EvNewRequest; EvRoundTrip (posted document []);
                EvDecode; EvUnmarshal (text octocat); EvClose].
Proof. repeat split; evaluate. Qed.

(** The envelope of the specification's example decodes into two errors. *)
Example decode_errors_body :
  decode_out (text errors_body) = inl (mkOut None x_and_y).
Proof. evaluate. Qed.

(** A payload that is absent and a payload that is null are both nil. *)
Example decode_null_body : decode_out (text null_body) = inl (mkOut None []).
Proof. evaluate. Qed.

Lemma Envelope_reference (body : string) (out : out_t) :
  decode_out (text body) = inl out ->
  Envelope (client (OK body)) (Some tt) document ∅ start
           (posted document []) (OK body) 1%nat out.
Proof.
  intros H. unfold Envelope, Receives. repeat split; [evaluate..|exact H].
Qed.

(** ** C1: partial success *)

(** A payload and an error arrive together, and the payload decodes. *)
Lemma Do_partial_success_witness :
  let c := client (OK both_body) in
  let out := mkOut (Some (text octocat)) [mkProtocolError "x" []] in
  let r := Do c (Some tt) document false ∅ start in
  (Envelope c (Some tt) document ∅ start (posted document []) (OK both_body)
            1%nat out
   /\ out_Data out = Some (text octocat)
   /\ out_Errors out <> []
   /\ snd (payload_decoder false (text octocat) (dest start)) = None)
  /\ In (decode_event false (text octocat)) (calls r)
  /\ dest (after r) = fst (payload_decoder false (text octocat) (dest start))
  /\ returned r = Some (ErrorsValue (out_Errors out)).
Proof.
  intros c out r.
  assert (Henv : Envelope c (Some tt) document ∅ start (posted document [])
                          (OK both_body) 1%nat out)
    by (apply Envelope_reference; evaluate).
  assert (Hd : out_Data out = Some (text octocat)) by reflexivity.
  assert (Hes : out_Errors out <> []) by discriminate.
  assert (Hok : snd (payload_decoder false (text octocat) (dest start)) = None)
    by evaluate.
  split; [repeat split; assumption|].
  exact (Do_partial_success c (Some tt) document false ∅ start
           (posted document []) (OK both_body) 1%nat out (text octocat)
           Henv Hd Hes Hok).
Defined.

(** A payload and an error arrive together, and the number under [id] has
    a fractional part: the envelope has a payload and a non-empty errors
    list, yet [Do] returns the error of the decoder and not the aggregate. *)
Lemma partial_success_needs_decoding :
  let c := client (OK bad_id_body) in
  let out := mkOut (Some (text octocat_bad_id)) [mkProtocolError "x" []] in
  let r := Do c (Some tt) document false ∅ start in
  Envelope c (Some tt) document ∅ start (posted document []) (OK bad_id_body)
           1%nat out
  /\ out_Data out = Some (text octocat_bad_id)
  /\ out_Errors out <> []
  /\ returned r = Some (External (ScalarRangeError "1.5"))
  /\ returned r <> Some (ErrorsValue (out_Errors out))
  /\ ~ (exists es, returned r = Some (ErrorsValue es)).
Proof.
  intros c out r.
  split; [apply Envelope_reference; evaluate|].
  split; [reflexivity|]. split; [discriminate|].
  assert (Hr : returned r = Some (External (ScalarRangeError "1.5")))
    by evaluate.
  split; [exact Hr|]. rewrite Hr.
  split; [discriminate|]. intros [es H]. discriminate.
Qed.

(** ** C2: the aggregate *)

Lemma errors_Error_first_witness :
  (decode_out (text errors_body) = inl (mkOut None x_and_y) /\ x_and_y <> [])
  /\ (exists first, x_and_y !! 0%nat = Some first
                    /\ errors_Error x_and_y = Some (Message first))
  /\ as_errors (ErrorsValue x_and_y) = Some x_and_y
  /\ (let xy := [mkProtocolError "x" []; mkProtocolError "y" []] in
      errors_Error xy = Some "x"
      /\ length <$> as_errors (ErrorsValue xy) = Some 2%nat).
Proof.
  assert (Hne : x_and_y <> []) by discriminate.
  split; [split; [evaluate|exact Hne]|].
  exact (errors_Error_first x_and_y Hne).
Defined.

(** The envelope of the specification's example, through [Query]. *)
Example Query_errors_body :
  let r := Query (client (OK errors_body)) (Some tt) ∅ start in
  returned r = Some (ErrorsValue x_and_y)
  /\ errors_Error x_and_y = Some "x"
  /\ length x_and_y = 2%nat.
Proof. repeat split; evaluate. Qed.

(** ** C3: an empty errors list *)

Lemma empty_errors_no_aggregate_witness :
  let c := client (OK good_body) in
  let out := mkOut (Some (text octocat)) [] in
  (Envelope c (Some tt) document ∅ start (posted document []) (OK good_body)
            1%nat out
   /\ out_Errors out = []
   /\ snd (payload_decoder false (text octocat) (dest start)) = None)
  /\ returned (Do c (Some tt) document false ∅ start) = None
  /\ (returned (Do (client (OK errors_body)) (Some tt) document false ∅ start)
      = Some (ErrorsValue x_and_y)
      /\ x_and_y <> []
      /\ exists msg, errors_Error x_and_y = Some msg).
Proof.
  intros c out.
  assert (Henv : Envelope c (Some tt) document ∅ start (posted document [])
                          (OK good_body) 1%nat out)
    by (apply Envelope_reference; evaluate).
  assert (Hok : snd (payload_decoder false (text octocat) (dest start)) = None)
    by evaluate.
  split; [repeat split; assumption|]. split.
  - apply (proj1 (empty_errors_no_aggregate c (Some tt) document false ∅ start)
             (posted document []) (OK good_body) 1%nat out Henv eq_refl).
    intros data [= <-]. exact Hok.
  - assert (Hr : returned (Do (client (OK errors_body)) (Some tt) document
                              false ∅ start) = Some (ErrorsValue x_and_y))
      by evaluate.
    split; [exact Hr|].
    exact (proj2 (empty_errors_no_aggregate (client (OK errors_body)) (Some tt)
                    document false ∅ start) x_and_y Hr).
Defined.

(** ** C4: the status check *)

Lemma Do_status_gate_witness :
  let c := client unavailable in
  let r := Do c (Some tt) document false ∅ start in
  Receives c (Some tt) document ∅ start (posted document []) unavailable 1%nat
  /\ (StatusCode unavailable <> 200 ->
      returned r
      = Some (errorString
                ("non-200 OK status code: " +:+ Status unavailable
                 +:+ " body: " +:+ strconv_Quote (RespBody unavailable)))
      /\ Forall (fun ev => is_envelope_decode ev = false) (calls r)
      /\ Forall (fun ev => is_payload_decode ev = false) (calls r)
      /\ dest (after r) = dest start)
  /\ (is_2xx (StatusCode unavailable) = false -> StatusCode unavailable <> 200)
  /\ (StatusCode unavailable = 200 -> In EvDecode (calls r)).
Proof.
  intros c r.
  assert (Hrec : Receives c (Some tt) document ∅ start (posted document [])
                          unavailable 1%nat)
    by (split; evaluate).
  split; [exact Hrec|].
  exact (Do_status_gate c (Some tt) document false ∅ start
           (posted document []) unavailable 1%nat Hrec).
Defined.

(** The status 201 is of the class 2xx, and the body is a good envelope:
    [Do] returns the status error, and the body is not decoded. *)
Lemma status_201_is_refused :
  let c := client created in
  let r := Do c (Some tt) document false ∅ start in
  is_2xx (StatusCode created) = true
  /\ Receives c (Some tt) document ∅ start (posted document []) created 1%nat
  /\ decode_out (RespBody created) = inl (mkOut (Some (text octocat)) [])
  /\ returned r = Some (status_error "201 Created" (text good_body))
  /\ ~ In EvDecode (calls r)
  /\ dest (after r) = dest start.
Proof.
  intros c r. split; [reflexivity|]. split; [split; evaluate|].
  split; [evaluate|]. split; [evaluate|]. split; [|evaluate].
  assert (Hc : calls r = [EvEncode; EvNewRequest;
                          EvRoundTrip (posted document []); EvReadAll; EvClose])
    by evaluate.
  rewrite Hc. intros H.
  repeat (destruct H as [H|H]; [discriminate H|]). exact H.
Qed.

(** ** C5: a body that is not an envelope *)

Lemma Do_envelope_decode_error_witness :
  let c := client (OK mistyped_body) in
  let c' := client (OK bad_id_body) in
  let e := UnmarshalTypeError "object" "graphql.errors" in
  let out := mkOut (Some (text octocat_bad_id)) [mkProtocolError "x" []] in
  (Receives c (Some tt) document ∅ start (posted document [])
            (OK mistyped_body) 1%nat
   /\ StatusCode (OK mistyped_body) = StatusOK
   /\ json_Decode (RespBody (OK mistyped_body)) = inr e)
  /\ (let r := Do c (Some tt) document false ∅ start in
      returned r = Some (External e)
      /\ dest (after r) = dest start
      /\ Forall (fun ev => is_payload_decode ev = false) (calls r))
  /\ (Receives c' (Some tt) document ∅ start (posted document [])
               (OK bad_id_body) 1%nat
      /\ json_Decode (RespBody (OK bad_id_body)) = inl out)
  /\ (let r := Do c' (Some tt) document false ∅ start in
      In EvDecode (calls r)
      /\ In (decode_event false (text octocat_bad_id)) (calls r)
      /\ forall e',
           snd (payload_decoder false (text octocat_bad_id) (dest start))
           = Some e' ->
           returned r = Some (External e')).
Proof.
  intros c c' e out.
  assert (Hrec : Receives c (Some tt) document ∅ start (posted document [])
                          (OK mistyped_body) 1%nat) by (split; evaluate).
  assert (Hrec' : Receives c' (Some tt) document ∅ start (posted document [])
                           (OK bad_id_body) 1%nat) by (split; evaluate).
  assert (He : json_Decode (RespBody (OK mistyped_body)) = inr e) by evaluate.
  assert (Ho : json_Decode (RespBody (OK bad_id_body)) = inl out) by evaluate.
  split; [repeat split; assumption|]. split.
  - exact (proj1 (Do_envelope_decode_error c (Some tt) document false ∅ start
                    (posted document []) (OK mistyped_body) 1%nat Hrec eq_refl)
                 e He).
  - split; [split; assumption|].
    exact (proj2 (Do_envelope_decode_error c' (Some tt) document false ∅ start
                    (posted document []) (OK bad_id_body) 1%nat Hrec' eq_refl)
                 out (text octocat_bad_id) Ho eq_refl).
Defined.

(** ** C6: the request *)

Lemma Do_request_on_wire_witness :
  let c := client (OK good_body) in
  let req := posted document [("a", JString "x"); ("b", JNumber "-42")] in
  let req0 := posted document [] in
  (In (EvRoundTrip req) (calls (Do c (Some tt) document true two_bindings start))
   /\ wire_request document two_bindings req)
  /\ (In (EvRoundTrip req0) (calls (Query c (Some tt) ∅ start))
      /\ wire_request (constructQuery (dest start) ∅) ∅ req0).
Proof.
  intros c req req0.
  assert (Hin : In (EvRoundTrip req)
                   (calls (Do c (Some tt) document true two_bindings start)))
    by (do 2 right; left; reflexivity).
  assert (Hin0 : In (EvRoundTrip req0) (calls (Query c (Some tt) ∅ start)))
    by (do 2 right; left; reflexivity).
  split; split; try assumption.
  - exact (proj1 (Do_request_on_wire c (Some tt) two_bindings start req)
                 document true Hin).
  - exact (proj1 (proj2 (Do_request_on_wire c (Some tt) ∅ start req0)) Hin0).
Defined.

(** The text of the two bodies above. *)
Example posted_bodies :
  Body (posted document [("a", JString "x"); ("b", JNumber "-42")])
  = text "{'query':'query { viewer { login id } }','variables':{'a':'x','b':-42}}"
    +:+ newline
  /\ Body (posted document [])
     = text "{'query':'query { viewer { login id } }'}" +:+ newline.
Proof. split; evaluate. Qed.

(** ** C7: no second attempt *)

Lemma Do_no_retry_witness :
  let c := NewClient unreachable endpoint None in
  let e := URLError "dial tcp: connection refused" in
  let r := Do c (Some tt) document false ∅ start in
  (request_of c (Some tt) document ∅ = Some (posted document [])
   /\ httpClient c (net start) (posted document []) = (inr e, 1%nat))
  /\ (round_trips (calls r) <= 1)%nat
  /\ returned r = Some (External e)
  /\ calls r = [EvEncode; EvNewRequest; EvRoundTrip (posted document [])].
Proof.
  intros c e r.
  assert (Hreq : request_of c (Some tt) document ∅ = Some (posted document []))
    by evaluate.
  assert (Hnet : httpClient c (net start) (posted document []) = (inr e, 1%nat))
    by reflexivity.
  pose proof (Do_no_retry c (Some tt) document false ∅ start)
    as (Hone & _ & _ & _ & _ & Htransport & _).
  split; [split; assumption|]. split; [exact Hone|].
  exact (Htransport (posted document []) e 1%nat Hreq Hnet).
Defined.

(** ** C8: replace and merge *)

Lemma Query_Mutate_replace_mode_witness :
  let c := client (OK good_body) in
  let out := mkOut (Some (text octocat)) [] in
  Envelope c (Some tt) document ∅ start (posted document []) (OK good_body)
           1%nat out
  /\ Query c (Some tt) ∅ start = Do c (Some tt) document false ∅ start
  /\ Forall (fun ev => is_merge_decode ev = false)
            (calls (Query c (Some tt) ∅ start))
  /\ (let r := Do c (Some tt) document true ∅ start in
      In (EvMergeUnmarshal (text octocat)) (calls r)
      /\ dest (after r) = fst (MergeUnmarshalGraphQL (text octocat) (dest start)))
  /\ (let r := Do c (Some tt) document false ∅ start in
      In (EvUnmarshal (text octocat)) (calls r)
      /\ dest (after r) = fst (UnmarshalGraphQL (text octocat) (dest start))).
Proof.
  intros c out.
  assert (Henv : Envelope c (Some tt) document ∅ start (posted document [])
                          (OK good_body) 1%nat out)
    by (apply Envelope_reference; evaluate).
  pose proof (Query_Mutate_replace_mode c (Some tt) ∅ start)
    as (HQ & _ & Hno & _ & _ & Hdata).
  split; [exact Henv|]. split; [exact HQ|]. split; [exact Hno|].
  exact (Hdata document (posted document []) (OK good_body) 1%nat out
               (text octocat) Henv eq_refl).
Defined.

(** ** C9: a payload that does not decode *)

Lemma Do_decode_error_hides_errors_witness :
  let c := client (OK bad_id_body) in
  let out := mkOut (Some (text octocat_bad_id)) [mkProtocolError "x" []] in
  let e := ScalarRangeError "1.5" in
  let r := Do c (Some tt) document false ∅ start in
  (Envelope c (Some tt) document ∅ start (posted document []) (OK bad_id_body)
            1%nat out
   /\ out_Data out = Some (text octocat_bad_id)
   /\ out_Errors out <> []
   /\ snd (payload_decoder false (text octocat_bad_id) (dest start)) = Some e)
  /\ returned r = Some (External e)
  /\ as_errors (External e) = None
  /\ returned r <> Some (ErrorsValue (out_Errors out)).
Proof.
  intros c out e r.
  assert (Henv : Envelope c (Some tt) document ∅ start (posted document [])
                          (OK bad_id_body) 1%nat out)
    by (apply Envelope_reference; evaluate).
  assert (Hes : out_Errors out <> []) by discriminate.
  assert (He : snd (payload_decoder false (text octocat_bad_id) (dest start))
               = Some e) by evaluate.
  split; [repeat split; assumption|].
  exact (proj1 (Do_decode_error_hides_errors c (Some tt) document false ∅ start)
               (posted document []) (OK bad_id_body) 1%nat out
               (text octocat_bad_id) e Henv eq_refl Hes He).
Defined.

(** What the decoder had written before it failed stays written. *)
Example bad_id_destination :
  dest (after (Do (client (OK bad_id_body)) (Some tt) document false ∅ start))
  = mkShape (mkViewer "octocat" 0).
Proof. evaluate. Qed.

(** ** C10: no payload *)

Lemma Do_without_payload_witness :
  let c := client (OK errors_body) in
  let out := mkOut None x_and_y in
  let r := Do c (Some tt) document true ∅ start in
  (Envelope c (Some tt) document ∅ start (posted document []) (OK errors_body)
            1%nat out
   /\ out_Data out = None)
  /\ Forall (fun ev => is_payload_decode ev = false) (calls r)
  /\ dest (after r) = dest start
  /\ (out_Errors out <> [] -> returned r = Some (ErrorsValue (out_Errors out)))
  /\ (out_Errors out = [] -> returned r = None).
Proof.
  intros c out r.
  assert (Henv : Envelope c (Some tt) document ∅ start (posted document [])
                          (OK errors_body) 1%nat out)
    by (apply Envelope_reference; evaluate).
  split; [split; [exact Henv|reflexivity]|].
  exact (Do_without_payload c (Some tt) document true ∅ start
           (posted document []) (OK errors_body) 1%nat out Henv eq_refl).
Defined.

(** A null payload and no error: nothing is decoded, and nil is returned. *)
Example Query_null_body :
  let r := Query (client (OK null_body)) (Some tt) ∅
                 (mkWorld (mkShape (mkViewer "octocat" 1)) 0%nat) in
  returned r = None
  /\ dest (after r) = mkShape (mkViewer "octocat" 1)
  /\ calls r = [EvEncode; EvNewRequest; EvRoundTrip (posted document []);
                EvDecode; EvClose].
Proof. repeat split; evaluate. Qed.

(** * The further properties on the reference platform *)

(** ** X1: where the request goes *)

Lemma NewClient_request_target_witness :
  let req := posted document [] in
  let r := Do (NewClient unreachable endpoint None) (Some tt) document false
              ∅ start in
  In (EvRoundTrip req) (calls r)
  /\ url_Parse endpoint = inl (ReqURL req)
  /\ Some tt = Some (Ctx req)
  /\ Header req = {["Content-Type" := ["application/json"]]}
  /\ net (after r) = snd (unreachable (net start) req).
Proof.
  intros req r.
  assert (Hin : In (EvRoundTrip req) (calls r))
    by (do 2 right; left; reflexivity).
  split; [exact Hin|].
  exact (NewClient_request_target unreachable endpoint None (Some tt) document
           false ∅ start req Hin).
Defined.

(** ** X2: when a request is built *)

Lemma request_built_iff_witness :
  (forall k v, two_bindings !! k = Some v -> exists j, json_Marshal v = inl j)
  /\ exists req,
       request_of (client (OK good_body)) (Some tt) document two_bindings
       = Some req.
Proof.
  assert (Hv : forall k v, two_bindings !! k = Some v ->
                           exists j, json_Marshal v = inl j).
  { intros k v. unfold two_bindings.
    destruct (decide (k = "b")) as [->|Hb].
    - rewrite lookup_insert_eq. intros [= <-]. eexists. reflexivity.
    - rewrite lookup_insert_ne by congruence.
      destruct (decide (k = "a")) as [->|Ha].
      + rewrite lookup_insert_eq. intros [= <-]. eexists. reflexivity.
      + rewrite lookup_insert_ne by congruence. rewrite lookup_empty.
        discriminate. }
  split; [exact Hv|].
  apply (proj2 (request_built_iff (client (OK good_body)) (Some tt) document
                  two_bindings)).
  split; [exact Hv|]. split; [discriminate|]. eexists. reflexivity.
Defined.

(** ** X3: no request *)

Lemma Do_without_request_witness :
  let c := client (OK good_body) in
  let r := Do c None document false ∅ start in
  request_of c None document ∅ = None
  /\ after r = start
  /\ round_trips (calls r) = 0%nat
  /\ count_calls is_payload_decode (calls r) = 0%nat
  /\ exists e, returned r = Some e
               /\ as_errors e = None
               /\ ((exists k v x, (∅ : gmap string Var) !! k = Some v
                                  /\ json_Marshal v = inr x /\ e = External x)
                   \/ (@None unit = None
                       /\ e = errorString "net/http: nil Context")
                   \/ (exists x, url_Parse (url c) = inr x /\ e = External x)).
Proof.
  intros c r.
  assert (Hreq : request_of c None document ∅ = None) by reflexivity.
  split; [exact Hreq|].
  exact (Do_without_request c None document false ∅ start Hreq).
Defined.

(** ** X4: one exchange *)

Lemma Do_one_exchange_witness :
  let c := client (OK both_body) in
  let r := Do c (Some tt) document true ∅ start in
  request_of c (Some tt) document ∅ = Some (posted document [])
  /\ List.filter is_round_trip (calls r) = [EvRoundTrip (posted document [])]
  /\ net (after r) = snd (httpClient c (net start) (posted document [])).
Proof.
  intros c r.
  assert (Hreq : request_of c (Some tt) document ∅ = Some (posted document []))
    by reflexivity.
  split; [exact Hreq|].
  exact (Do_one_exchange c (Some tt) document true ∅ start (posted document [])
           Hreq).
Defined.

(** ** X5, X6: the body of the answer *)

Lemma Do_reads_body_once_and_closes_witness :
  let c := client unavailable in
  let r := Do c (Some tt) document false ∅ start in
  Receives c (Some tt) document ∅ start (posted document []) unavailable 1%nat
  /\ count_calls is_body_read (calls r) = 1%nat
  /\ count_calls is_close (calls r) = 1%nat
  /\ last (calls r) = Some EvClose
  /\ (StatusCode unavailable = StatusOK -> In EvDecode (calls r))
  /\ (StatusCode unavailable <> StatusOK -> In EvReadAll (calls r)).
Proof.
  intros c r.
  assert (Hrec : Receives c (Some tt) document ∅ start (posted document [])
                          unavailable 1%nat) by (split; reflexivity).
  split; [exact Hrec|].
  exact (Do_reads_body_once_and_closes c (Some tt) document false ∅ start
           (posted document []) unavailable 1%nat Hrec).
Defined.

Lemma Do_no_body_without_response_witness :
  let r := Do offline (Some tt) document false ∅ start in
  (forall req resp n, ~ Receives offline (Some tt) document ∅ start req resp n)
  /\ count_calls is_body_read (calls r) = 0%nat
  /\ count_calls is_close (calls r) = 0%nat
  /\ dest (after r) = dest start
  /\ exists e, returned r = Some e.
Proof.
  intros r.
  assert (Hno : forall req resp n,
             ~ Receives offline (Some tt) document ∅ start req resp n).
  { intros req resp n [_ H]. discriminate H. }
  split; [exact Hno|].
  exact (Do_no_body_without_response offline (Some tt) document false ∅ start
           Hno).
Defined.

(** ** X7, X8: nil and the errors list *)

Lemma Do_returns_nil_iff_witness :
  let c := client (OK good_body) in
  let out := mkOut (Some (text octocat)) [] in
  (Envelope c (Some tt) document ∅ start (posted document []) (OK good_body)
            1%nat out
   /\ out_Errors out = []
   /\ forall data, out_Data out = Some data ->
                   snd (payload_decoder false data (dest start)) = None)
  /\ returned (Do c (Some tt) document false ∅ start) = None.
Proof.
  intros c out.
  assert (Henv : Envelope c (Some tt) document ∅ start (posted document [])
                          (OK good_body) 1%nat out)
    by (apply Envelope_reference; reflexivity).
  assert (Hok : forall data, out_Data out = Some data ->
                  snd (payload_decoder false data (dest start)) = None)
    by (intros data [= <-]; reflexivity).
  split; [repeat split; assumption|].
  apply (proj2 (Do_returns_nil_iff c (Some tt) document false ∅ start)).
  exists (posted document []), (OK good_body), 1%nat, out.
  repeat split; assumption.
Defined.

Lemma Do_returns_errors_iff_witness :
  let c := client (OK errors_body) in
  returned (Do c (Some tt) document false ∅ start) = Some (ErrorsValue x_and_y)
  /\ exists req resp n out,
       Envelope c (Some tt) document ∅ start req resp n out
       /\ out_Errors out = x_and_y
       /\ x_and_y <> []
       /\ forall data, out_Data out = Some data ->
                       snd (payload_decoder false data (dest start)) = None.
Proof.
  intros c.
  assert (Hr : returned (Do c (Some tt) document false ∅ start)
               = Some (ErrorsValue x_and_y)) by reflexivity.
  split; [exact Hr|].
  exact (proj1 (Do_returns_errors_iff c (Some tt) document false ∅ start
                  x_and_y) Hr).
Defined.

(** ** X9: errors of plain text *)


(** ** X10, X11: the destination and the flag *)

Lemma Do_writes_destination_once_witness :
  let c := client (OK good_body) in
  let r := Do c (Some tt) document true ∅ start in
  In (EvMergeUnmarshal (text octocat)) (calls r)
  /\ (count_calls is_payload_decode (calls r) <= 1)%nat
  /\ exists req resp n out data,
       Envelope c (Some tt) document ∅ start req resp n out
       /\ out_Data out = Some data
       /\ EvMergeUnmarshal (text octocat) = decode_event true data
       /\ dest (after r) = fst (payload_decoder true data (dest start)).
Proof.
  intros c r.
  assert (Hin : In (EvMergeUnmarshal (text octocat)) (calls r))
    by (do 4 right; left; reflexivity).
  pose proof (Do_writes_destination_once c (Some tt) document true ∅ start)
    as (Hone & _ & Hev).
  split; [exact Hin|]. split; [exact Hone|].
  exact (Hev (EvMergeUnmarshal (text octocat)) Hin eq_refl).
Defined.

Lemma Do_merge_irrelevant_without_payload_witness :
  let c := client (OK errors_body) in
  count_calls is_payload_decode (calls (Do c (Some tt) document true ∅ start))
  = 0%nat
  /\ Do c (Some tt) document (negb true) ∅ start
     = Do c (Some tt) document true ∅ start.
Proof.
  intros c.
  assert (H0 : count_calls is_payload_decode
                 (calls (Do c (Some tt) document true ∅ start)) = 0%nat)
    by reflexivity.
  split; [exact H0|].
  exact (Do_merge_irrelevant_without_payload c (Some tt) document true ∅ start
           H0).
Defined.

(** ** X12: the order of the early errors *)

Lemma Do_early_error_order_witness :
  let c := client (OK good_body) in
  (exists k v x, channel_binding !! k = Some v /\ json_Marshal v = inr x)
  /\ (let r := Do c None "" false channel_binding start in
      calls r = [EvEncode]
      /\ exists k v x, channel_binding !! k = Some v /\ json_Marshal v = inr x
                       /\ returned r = Some (External x))
  /\ (let r := Do c None document false ∅ start in
      calls r = [EvEncode; EvNewRequest]
      /\ returned r = Some (errorString "net/http: nil Context")).
Proof.
  intros c.
  assert (Hbad : exists k v x, channel_binding !! k = Some v
                               /\ json_Marshal v = inr x).
  { exists "c", VChan, (UnsupportedTypeError "chan int").
    split; [apply lookup_insert_eq|reflexivity]. }
  split; [exact Hbad|]. split.
  - exact (proj1 (Do_early_error_order c None "" false channel_binding start)
                 Hbad).
  - apply (proj2 (Do_early_error_order c None document false ∅ start));
      [|reflexivity].
    intros k v H. rewrite lookup_empty in H. discriminate.
Defined.
